(** * Session / emotion-detection data model of the facial emotion
      recognition service

    A shallow embedding of the Express routers [routes/sessions.js],
    [routes/auth.js], [routes/emotions.js], of the helper class
    [database/database.js] and of the tables and the trigger of
    [database/schema.sql]; and, of the browser side, of the pure parts of
    the classes [EmotionApp] (js/app.js) and [EmotionEngine].

    Modelling conventions.
    - A table is the list of its rows in rowid order.  An [INTEGER] column
      is a [Z], a nullable column an [option]; [AUTOINCREMENT] keeps the
      largest rowid ever handed out in the [seq_*] fields.
    - A [REAL] column and a JSON number are exact rationals ([Q]); the
      rounding of binary64 arithmetic is outside the model.
    - A [DATETIME] is the instant it denotes, in seconds ([Z]); the
      server clock is the argument [now] of every handler.
    - A request body is the parsed JSON object, a list of bindings.  A
      numeric string that Joi's default conversion (and SQLite's column
      affinity) reads as a number is represented by that number.
    - Joi's e-mail syntax check, bcrypt, the JWT signer and the JWT
      verifier are external libraries: they are the variables of the
      section.
    - Of the browser, only what the code computes is modelled: the outcome
      of a network request or of the face detector is an argument. *)

From Stdlib Require Import List ZArith QArith String Ascii Bool Lia.
From Stdlib Require Import Permutation Sorted.
From Stdlib Require Import DecimalString Lqa.
Import ListNotations.

Local Open Scope string_scope.
Local Open Scope Z_scope.

(** ** JSON values and request bodies *)

Inductive jsval : Type :=
| JNull
| JBool (b : bool)
| JNum (q : Q)
| JStr (s : string)
| JObj (text : string)
| JArr (text : string).

Definition body : Type := list (string * jsval).

Fixpoint lookup (k : string) (b : body) : option jsval :=
  match b with
  | [] => None
  | (k', v) :: rest => if String.eqb k k' then Some v else lookup k rest
  end.

Definition body_num (b : body) (k : string) : option Q :=
  match lookup k b with Some (JNum q) => Some q | _ => None end.

Definition is_integer (q : Q) : bool := Pos.eqb (Qden (Qred q)) 1.

Definition body_int (b : body) (k : string) : option Z :=
  match lookup k b with
  | Some (JNum q) => if is_integer q then Some (Qnum (Qred q)) else None
  | _ => None
  end.

Definition body_str (b : body) (k : string) : option string :=
  match lookup k b with Some (JStr s) => Some s | _ => None end.

Definition body_obj (b : body) (k : string) : option string :=
  match lookup k b with Some (JObj t) => Some t | _ => None end.

(** ** Joi schemas

    [Joi.object({...}).validate(body)] with the default options: keys are
    visited in the order of the schema, the first error ends the
    validation ([abortEarly]), a key that the schema does not list
    is an error reported after the listed keys. *)

Inductive JType : Type := TNumber | TString | TObject.

Inductive Rule : Type :=
| RRequired                      (* any.required *)
| RBase                          (* number.base, string.base, object.base *)
| REmpty                         (* string.empty *)
| ROnly (allowed : list string)  (* any.only, from .valid(...) *)
| RInteger                       (* number.integer *)
| RMin (n : Z)                   (* number.min *)
| RMax (n : Z)                   (* number.max *)
| RLenMin (n : nat)              (* string.min *)
| RLenMax (n : nat)              (* string.max *)
| RAlphanum                      (* string.alphanum *)
| REmail                         (* string.email *)
| RUnknown.                      (* object.unknown *)

Record KeySchema : Type := mkKey {
  k_name : string;
  k_type : JType;
  k_required : bool;
  k_valid : option (list string);
  k_rules : list Rule
}.

Definition Schema : Type := list KeySchema.

Definition is_alnum (c : ascii) : bool :=
  let n := nat_of_ascii c in
  ((48 <=? n) && (n <=? 57) || (65 <=? n) && (n <=? 90)
   || (97 <=? n) && (n <=? 122))%nat.

Definition mem_string (s : string) (l : list string) : bool :=
  existsb (String.eqb s) l.

Definition Qleb (a b : Q) : bool := Qle_bool a b.

(** ** Replies *)

Inductive Failure : Type :=
| ValidationError (key : string) (rule : Rule)
| NotFound (msg : string)
| Conflict (msg : string)
| Unauthorized (msg : string)
| Internal (msg : string).

Definition status (f : Failure) : Z :=
  match f with
  | ValidationError _ _ => 400
  | Unauthorized _ => 401
  | NotFound _ => 404
  | Conflict _ => 409
  | Internal _ => 500
  end.

Inductive Reply (A : Type) : Type :=
| Done (a : A)
| Failed (f : Failure).

Arguments Done {A} a.
Arguments Failed {A} f.

(** ** Tables of [schema.sql] *)

Record User : Type := mkUser {
  u_id : Z;
  u_username : string;
  u_email : string;
  u_password_hash : string;
  u_full_name : option string;
  u_is_active : bool;
  u_last_login : option Z
}.

Record Session : Type := mkSession {
  s_id : Z;
  s_user_id : option Z;
  s_session_name : option string;
  s_start_time : Z;
  s_end_time : option Z;
  s_duration_seconds : option Z;
  s_total_detections : option Z;
  s_accuracy_score : option Q;
  s_device_info : option string;
  s_ip_address : option string;
  s_location : option string;
  s_is_completed : bool
}.

Record Emotion : Type := mkEmotion {
  e_id : Z;
  e_session_id : Z;
  e_emotion_type : string;
  e_confidence_score : Q;
  e_timestamp : Z;
  e_face_coordinates : option string;
  e_age_estimate : option Z;
  e_gender_estimate : option string;
  e_image_id : option Z;
  e_processing_time_ms : option Z;
  e_raw_data : option string
}.

(** A row of the table [emotion_summaries]. *)
Record StoredSummary : Type := mkStoredSummary {
  es_id : Z;
  es_user_id : option Z;
  es_session_id : option Z;
  es_emotion_type : string;
  es_count : Z;
  es_average_confidence : option Q;
  es_first_detected : option Z;
  es_last_detected : option Z;
  es_percentage_of_total : option Q
}.

Record DB : Type := mkDB {
  users : list User;
  sessions : list Session;
  emotions : list Emotion;
  emotion_summaries : list StoredSummary;
  seq_users : Z;
  seq_sessions : Z;
  seq_emotions : Z
}.

(** The store right after [database.initialize()] on a new file. *)
Definition empty_db : DB := mkDB [] [] [] [] 0 0 0.

Definition set_users (db : DB) (us : list User) (sq : Z) : DB :=
  mkDB us (sessions db) (emotions db) (emotion_summaries db)
       sq (seq_sessions db) (seq_emotions db).

Definition set_sessions (db : DB) (ss : list Session) (sq : Z) : DB :=
  mkDB (users db) ss (emotions db) (emotion_summaries db)
       (seq_users db) sq (seq_emotions db).

Definition set_emotions (db : DB) (es : list Emotion) (sq : Z) : DB :=
  mkDB (users db) (sessions db) es (emotion_summaries db)
       (seq_users db) (seq_sessions db) sq.

(** The body of [PUT /api/sessions/:id/end]; the route validates nothing,
    an absent field is bound as NULL. *)
Record EndRequest : Type := mkEnd {
  endTime : option Z;
  duration : option Z;
  totalDetections : option Z;
  accuracy : option Q
}.


(** The [data] object of the reply of [POST /api/emotions]. *)
Record Recorded : Type := mkRecorded {
  r_id : Z;
  r_sessionId : Z;
  r_emotionType : string;
  r_confidenceScore : Q;
  r_timestamp : Z
}.




(** The reply of a successful [register] or [login]. *)
Record AuthReply : Type := mkAuthReply {
  a_token : string;
  a_id : Z;
  a_username : string;
  a_email : string;
  a_fullName : option string
}.

(** The requests that reach the store, each with its path parameter and body. *)
Inductive Request : Type :=
| PostSession (b : body)
| PutSession (sid : option Z) (b : body)
| DeleteSession (sid : option Z)
| PutSessionEnd (sid : option Z) (r : EndRequest)
| PostEmotion (b : body)
| DeleteEmotion (id : option Z)
| GetSummary (sid : option Z)
| Register (b : body)
| Login (b : body).


(** The reply of a listing route: the rows with the [pagination] object. *)
Record Page (A : Type) : Type := mkPage {
  p_rows : list A;
  p_limit : Z;
  p_offset : Z;
  p_total : Z
}.

Arguments mkPage {A} p_rows p_limit p_offset p_total.
Arguments p_rows {A} p.
Arguments p_limit {A} p.
Arguments p_offset {A} p.
Arguments p_total {A} p.

(** A row of [GET /api/emotions/realtime]: [e.*, s.session_name, u.username]. *)
Record Realtime : Type := mkRealtime {
  rt_emotion : Emotion;
  rt_session_name : option string;
  rt_username : string
}.

(** The outcome of [jwt.verify(token, JWT_SECRET)]: the payload, or one of
    the two errors the routes tell apart. *)
Inductive JwtResult : Type :=
| JwtPayload (userId : Z) (username email : string)
| JwtExpired
| JwtInvalid.

(** The outcome of the middleware [authenticateToken]: [next()] with
    [req.user] set, or a reply with a status and a message. *)
Inductive Gate : Type :=
| Pass (userId : Z) (username email : string)
| Refuse (code : Z) (msg : string).




(** The value of [table[key]] for an object literal [table]: an own
    property, or a property inherited from [Object.prototype]. *)
Inductive Looked (A : Type) : Type :=
| Own (a : A)
| Inherited (key : string).

Arguments Own {A} a.
Arguments Inherited {A} key.

(** An entry of the table of [EmotionEngine.getEmotionContext]. *)
Record EmotionContext : Type := mkContext {
  triggers : list string;
  physical : list string;
  psychological : list string
}.

(** The object built by [EmotionEngine.analyzeEmotionContext]. *)
Record Analysis : Type := mkAnalysis {
  an_primaryEmotion : string;
  an_confidence : Q;
  an_timestamp : Z;
  an_context : Looked (option EmotionContext);
  an_intensity : string;
  an_secondaryEmotions : Looked (list string);
  an_recommendations : Looked (list string)
}.

(** The fields of [EmotionEngine] that its methods update; [emotionPatterns]
    is a [Map], its keys in order of insertion. *)
Record Engine : Type := mkEngine {
  emotionHistory : list Analysis;
  emotionPatterns : list (string * list Analysis)
}.

(** What the browser answers to [EmotionApp.loadModels]: for a URL, the
    message of the error that loading the four networks from it raises, if
    any; for a local file, whether a HEAD request finds it. *)
Record Network : Type := mkNetwork {
  load_from : string -> option string;
  check_local : string -> bool
}.

(** Stand-ins for the external libraries, used where a statement is
    evaluated on concrete requests. *)
Definition sample_email_format (s : string) : bool :=
  existsb (Ascii.eqb "@"%char) (list_ascii_of_string s).

Definition sample_bcrypt_hash (password : string) : string :=
  "$2a$10$" ++ password.

Definition sample_bcrypt_compare (password hash : string) : bool :=
  String.eqb (sample_bcrypt_hash password) hash.

Definition sample_jwt_sign (id : Z) (username email : string) (now : Z) : string :=
  "jwt." ++ username ++ "." ++ email.

Definition sample_jwt_verify (token : string) (now : Z) : JwtResult :=
  if String.eqb token "jwt.bob.bob@example.com"
  then JwtPayload 1 "bob" "bob@example.com"
  else JwtInvalid.

Section Service.

Set Default Proof Using "Type".

(** Joi's [string().email()] check. *)
Variable email_format : string -> bool.
(** [bcrypt.hash(password, 10)] and [bcrypt.compare(password, hash)]. *)
Variable bcrypt_hash : string -> string.
Variable bcrypt_compare : string -> string -> bool.
(** [jwt.sign({userId, username, email}, JWT_SECRET, {expiresIn: '7d'})]
    at the given instant. *)
Variable jwt_sign : Z -> string -> string -> Z -> string.

(** [rule_violated r v] is [true] when the value [v], already of the type of
    its key, breaks rule [r]. *)
Definition rule_violated (r : Rule) (v : jsval) : bool :=
  match r, v with
  | RInteger, JNum q => negb (is_integer q)
  | RMin n, JNum q => negb (Qleb (inject_Z n) q)
  | RMax n, JNum q => negb (Qleb q (inject_Z n))
  | RLenMin n, JStr s => (String.length s <? n)%nat
  | RLenMax n, JStr s => (n <? String.length s)%nat
  | RAlphanum, JStr s => negb (forallb is_alnum (list_ascii_of_string s))
  | REmail, JStr s => negb (email_format s)
  | _, _ => false
  end.

Definition first_violated (rules : list Rule) (v : jsval) : option Rule :=
  find (fun r => rule_violated r v) rules.

Definition check_key (ks : KeySchema) (v : option jsval) : option Rule :=
  match v with
  | None => if k_required ks then Some RRequired else None
  | Some v =>
      match k_valid ks with
      | Some allowed =>
          match v with
          | JStr s => if mem_string s allowed then None else Some (ROnly allowed)
          | _ => Some (ROnly allowed)
          end
      | None =>
          match k_type ks, v with
          | TNumber, JNum _ => first_violated (k_rules ks) v
          | TString, JStr s =>
              if String.eqb s "" then Some REmpty
              else first_violated (k_rules ks) v
          | TObject, JObj _ => None
          | _, _ => Some RBase
          end
      end
  end.

Fixpoint check_keys (sch : Schema) (b : body) : option (string * Rule) :=
  match sch with
  | [] => None
  | ks :: rest =>
      match check_key ks (lookup (k_name ks) b) with
      | Some r => Some (k_name ks, r)
      | None => check_keys rest b
      end
  end.

Definition unknown_key (sch : Schema) (b : body) : option (string * Rule) :=
  match find (fun kv => negb (mem_string (fst kv) (map k_name sch))) b with
  | Some (k, _) => Some (k, RUnknown)
  | None => None
  end.

Definition validate (sch : Schema) (b : body) : option (string * Rule) :=
  match check_keys sch b with
  | Some e => Some e
  | None => unknown_key sch b
  end.

(** ** routes/sessions.js *)

Definition sessionSchema : Schema :=
  [ mkKey "sessionName" TString true None [RLenMin 3; RLenMax 100];
    mkKey "deviceInfo" TString false None [RLenMax 500];
    mkKey "ipAddress" TString false None [RLenMax 45];
    mkKey "location" TString false None [RLenMax 255] ].

(** [SELECT ... FROM sessions WHERE id = ?] *)
Definition get_session (sid : Z) (db : DB) : option Session :=
  find (fun s => Z.eqb (s_id s) sid) (sessions db).

(** [Database.createSession]: the columns left out of the INSERT take their
    defaults, [start_time = CURRENT_TIMESTAMP], [total_detections = 0],
    [is_completed = 0]; [sessionData.userId] is never supplied by the
    route. *)
Definition createSession (now : Z) (name device ip loc : option string)
    (db : DB) : Z * DB :=
  let id := seq_sessions db + 1 in
  let row := mkSession id None name now None None (Some 0) None
                       device ip loc false in
  (id, set_sessions db (sessions db ++ [row]) id).

(** [POST /api/sessions] *)
Definition post_session (now : Z) (b : body) (db : DB) : Reply Z * DB :=
  match validate sessionSchema b with
  | Some (k, r) => (Failed (ValidationError k r), db)
  | None =>
      let '(id, db') :=
        createSession now (body_str b "sessionName") (body_str b "deviceInfo")
                      (body_str b "ipAddress") (body_str b "location") db in
      (Done id, db')
  end.

Definition update_sessions (f : Session -> Session) (sid : Z) (db : DB) : DB :=
  set_sessions db
    (map (fun s => if Z.eqb (s_id s) sid then f s else s) (sessions db))
    (seq_sessions db).

(** [PUT /api/sessions/:id] *)
Definition put_session (sid : option Z) (b : body) (db : DB) : Reply unit * DB :=
  match validate sessionSchema b with
  | Some (k, r) => (Failed (ValidationError k r), db)
  | None =>
      match sid with
      | None => (Done tt, db)
      | Some i =>
          (Done tt,
           update_sessions
             (fun s => mkSession (s_id s) (s_user_id s)
                         (body_str b "sessionName") (s_start_time s)
                         (s_end_time s) (s_duration_seconds s)
                         (s_total_detections s) (s_accuracy_score s)
                         (body_str b "deviceInfo") (body_str b "ipAddress")
                         (body_str b "location") (s_is_completed s))
             i db)
      end
  end.

(** [DELETE /api/sessions/:id].  The code never issues
    [PRAGMA foreign_keys = ON], so the row alone goes. *)
Definition delete_session (sid : option Z) (db : DB) : Reply unit * DB :=
  match sid with
  | None => (Done tt, db)
  | Some i =>
      (Done tt,
       set_sessions db (filter (fun s => negb (Z.eqb (s_id s) i)) (sessions db))
                    (seq_sessions db))
  end.

(** Trigger [update_sessions_duration]:
    [AFTER UPDATE ON sessions FOR EACH ROW
     WHEN NEW.end_time IS NOT NULL AND OLD.end_time IS NULL]. *)
Definition update_sessions_duration (old new : Session) : Session :=
  match s_end_time new, s_end_time old with
  | Some e, None =>
      mkSession (s_id new) (s_user_id new) (s_session_name new)
                (s_start_time new) (s_end_time new)
                (Some (e - s_start_time new))
                (s_total_detections new) (s_accuracy_score new)
                (s_device_info new) (s_ip_address new) (s_location new)
                (s_is_completed new)
  | _, _ => new
  end.

(** The UPDATE of the route, followed by the trigger. *)
Definition end_row (r : EndRequest) (old : Session) : Session :=
  update_sessions_duration old
    (mkSession (s_id old) (s_user_id old) (s_session_name old)
               (s_start_time old) (endTime r) (duration r)
               (totalDetections r) (accuracy r)
               (s_device_info old) (s_ip_address old) (s_location old)
               (s_is_completed old)).

(** [PUT /api/sessions/:id/end] *)
Definition put_session_end (sid : option Z) (r : EndRequest) (db : DB)
    : Reply string * DB :=
  match sid with
  | None => (Done "Session ended successfully", db)
  | Some i => (Done "Session ended successfully", update_sessions (end_row r) i db)
  end.



(** ** routes/emotions.js *)

Definition emotion_labels : list string :=
  ["happy"; "sad"; "angry"; "surprised"; "fearful"; "disgusted"; "neutral"].

Definition emotionSchema : Schema :=
  [ mkKey "sessionId" TNumber true None [RInteger];
    mkKey "emotionType" TString true (Some emotion_labels) [];
    mkKey "confidenceScore" TNumber true None [RMin 0; RMax 1];
    mkKey "faceCoordinates" TObject false None [];
    mkKey "ageEstimate" TNumber false None [RInteger; RMin 0; RMax 120];
    mkKey "genderEstimate" TString false (Some ["male"; "female"]) [];
    mkKey "imageId" TNumber false None [RInteger];
    mkKey "processingTimeMs" TNumber false None [RInteger; RMin 0];
    mkKey "rawData" TObject false None [] ].

(** [Database.createEmotion].  [timestamp] takes [CURRENT_TIMESTAMP]; the
    method reads [emotionData.processingTime], a property the route never
    sets, so [processing_time_ms] is always NULL. *)
Definition createEmotion (now sid : Z) (ty : string) (conf : Q)
    (face : option string) (age : option Z) (gender : option string)
    (image : option Z) (raw : option string) (db : DB) : Z * DB :=
  let id := seq_emotions db + 1 in
  let row := mkEmotion id sid ty conf now face age gender image None raw in
  (id, set_emotions db (emotions db ++ [row]) id).

(** [UPDATE sessions SET total_detections = total_detections + d WHERE id = ?];
    NULL stays NULL. *)
Definition add_detections (d : Z) (s : Session) : Session :=
  mkSession (s_id s) (s_user_id s) (s_session_name s) (s_start_time s)
            (s_end_time s) (s_duration_seconds s)
            (option_map (fun n => n + d) (s_total_detections s))
            (s_accuracy_score s) (s_device_info s) (s_ip_address s)
            (s_location s) (s_is_completed s).

(** [POST /api/emotions] *)
Definition post_emotion (now : Z) (b : body) (db : DB) : Reply Recorded * DB :=
  match validate emotionSchema b with
  | Some (k, r) => (Failed (ValidationError k r), db)
  | None =>
      match body_int b "sessionId", body_str b "emotionType",
            body_num b "confidenceScore" with
      | Some sid, Some ty, Some conf =>
          match get_session sid db with
          | None => (Failed (NotFound "Session not found"), db)
          | Some _ =>
              let '(id, db1) :=
                createEmotion now sid ty conf (body_obj b "faceCoordinates")
                  (body_int b "ageEstimate") (body_str b "genderEstimate")
                  (body_int b "imageId") (body_obj b "rawData") db in
              (Done (mkRecorded id sid ty conf now),
               update_sessions (add_detections 1) sid db1)
          end
      | _, _, _ =>
          (* a required key without a value: not reached once the schema
             has accepted the body *)
          (Failed (Internal "Failed to record emotion detection"), db)
      end
  end.

(** [SELECT id, session_id FROM emotions WHERE id = ?] *)
Definition get_emotion (id : Z) (db : DB) : option Emotion :=
  find (fun e => Z.eqb (e_id e) id) (emotions db).

(** [DELETE /api/emotions/:id]; [None] is a path segment that [parseInt]
    turns into NaN. *)
Definition delete_emotion (id : option Z) (db : DB) : Reply string * DB :=
  match id with
  | None => (Failed (NotFound "Emotion not found"), db)
  | Some i =>
      match get_emotion i db with
      | None => (Failed (NotFound "Emotion not found"), db)
      | Some e =>
          let db1 :=
            set_emotions db
              (filter (fun x => negb (Z.eqb (e_id x) i)) (emotions db))
              (seq_emotions db) in
          (Done "Emotion deleted successfully",
           update_sessions (add_detections (-1)) (e_session_id e) db1)
      end
  end.

(** *** The aggregate query of [Database.getEmotionSummary]

    [SELECT emotion_type, COUNT( * ), AVG(confidence_score), MIN(timestamp),
            MAX(timestamp)
     FROM emotions WHERE session_id = ? GROUP BY emotion_type
     ORDER BY count DESC] *)








Definition session_rows (sid : Z) (db : DB) : list Emotion :=
  filter (fun e => Z.eqb (e_session_id e) sid) (emotions db).






(** ** routes/auth.js *)

Definition registerSchema : Schema :=
  [ mkKey "username" TString true None [RAlphanum; RLenMin 3; RLenMax 30];
    mkKey "email" TString true None [REmail];
    mkKey "password" TString true None [RLenMin 6];
    mkKey "fullName" TString false None [RLenMin 2; RLenMax 100] ].

Definition loginSchema : Schema :=
  [ mkKey "email" TString true None [REmail];
    mkKey "password" TString true None [] ].

(** [SELECT * FROM users WHERE email = ? AND is_active = 1] *)
Definition findUserByEmail (email : string) (db : DB) : option User :=
  find (fun u => String.eqb (u_email u) email && u_is_active u) (users db).

(** [SELECT * FROM users WHERE username = ? AND is_active = 1] *)
Definition findUserByUsername (username : string) (db : DB) : option User :=
  find (fun u => String.eqb (u_username u) username && u_is_active u) (users db).

(** [Database.createUser]: the INSERT is refused ([None]) when it would
    break [username UNIQUE] or [email UNIQUE]; [is_active] defaults to 1. *)
Definition createUser (username email passwordHash : string)
    (fullName : option string) (db : DB) : option (Z * DB) :=
  if existsb (fun u => String.eqb (u_username u) username
                       || String.eqb (u_email u) email) (users db)
  then None
  else
    let id := seq_users db + 1 in
    let row := mkUser id username email passwordHash fullName true None in
    Some (id, set_users db (users db ++ [row]) id).

(** [POST /api/auth/register] *)
Definition register (now : Z) (b : body) (db : DB) : Reply AuthReply * DB :=
  match validate registerSchema b with
  | Some (k, r) => (Failed (ValidationError k r), db)
  | None =>
      match body_str b "username", body_str b "email", body_str b "password" with
      | Some username, Some email, Some password =>
          match findUserByEmail email db with
          | Some _ => (Failed (Conflict "User already exists with this email"), db)
          | None =>
              match findUserByUsername username db with
              | Some _ => (Failed (Conflict "Username already taken"), db)
              | None =>
                  let passwordHash := bcrypt_hash password in
                  let fullName := body_str b "fullName" in
                  match createUser username email passwordHash fullName db with
                  | None => (Failed (Internal "Registration failed"), db)
                  | Some (id, db') =>
                      (Done (mkAuthReply (jwt_sign id username email now)
                                         id username email fullName), db')
                  end
              end
          end
      | _, _, _ => (Failed (Internal "Registration failed"), db)
      end
  end.

(** [UPDATE users SET last_login = CURRENT_TIMESTAMP WHERE id = ?] *)
Definition touch_last_login (now id : Z) (db : DB) : DB :=
  set_users db
    (map (fun u => if Z.eqb (u_id u) id
                   then mkUser (u_id u) (u_username u) (u_email u)
                               (u_password_hash u) (u_full_name u)
                               (u_is_active u) (Some now)
                   else u) (users db))
    (seq_users db).

(** [POST /api/auth/login] *)
Definition login (now : Z) (b : body) (db : DB) : Reply AuthReply * DB :=
  match validate loginSchema b with
  | Some (k, r) => (Failed (ValidationError k r), db)
  | None =>
      match body_str b "email", body_str b "password" with
      | Some email, Some password =>
          match findUserByEmail email db with
          | None => (Failed (Unauthorized "Invalid credentials"), db)
          | Some user =>
              if bcrypt_compare password (u_password_hash user)
              then
                (Done (mkAuthReply
                         (jwt_sign (u_id user) (u_username user) (u_email user) now)
                         (u_id user) (u_username user) (u_email user)
                         (u_full_name user)),
                 touch_last_login now (u_id user) db)
              else (Failed (Unauthorized "Invalid credentials"), db)
          end
      | _, _ => (Failed (Internal "Login failed"), db)
      end
  end.

(** ** The service as a transition system *)

Definition step (db : DB) (call : Z * Request) : DB :=
  let '(now, req) := call in
  match req with
  | PostSession b => snd (post_session now b db)
  | PutSession sid b => snd (put_session sid b db)
  | DeleteSession sid => snd (delete_session sid db)
  | PutSessionEnd sid r => snd (put_session_end sid r db)
  | PostEmotion b => snd (post_emotion now b db)
  | DeleteEmotion id => snd (delete_emotion id db)
  | GetSummary _ => db
  | Register b => snd (register now b db)
  | Login b => snd (login now b db)
  end.

Definition run (calls : list (Z * Request)) (db : DB) : DB :=
  fold_left step calls db.


(** ** Vocabulary of the properties *)

(** [(k, r)] is the first constraint of [sch], in the order of its keys, that
    the body breaks: every key listed before [k] is accepted. *)
Definition first_violation (sch : Schema) (b : body) (k : string) (r : Rule)
    : Prop :=
  exists pre ks post,
    sch = (pre ++ ks :: post)%list /\ k_name ks = k
    /\ Forall (fun ks' => check_key ks' (lookup (k_name ks') b) = None) pre
    /\ check_key ks (lookup k b) = Some r.

Definition label_outside_enum (b : body) : Prop :=
  forall s, lookup "emotionType" b = Some (JStr s) -> ~ In s emotion_labels.

Definition confidence_out_of_range (b : body) : Prop :=
  exists q, lookup "confidenceScore" b = Some (JNum q) /\ (q < 0 \/ 1 < q)%Q.

Definition age_out_of_range (b : body) : Prop :=
  exists q, lookup "ageEstimate" b = Some (JNum q)
            /\ (q < 0 \/ inject_Z 120 < q)%Q.

Definition gender_outside_enum (b : body) : Prop :=
  exists v, lookup "genderEstimate" b = Some v
            /\ v <> JStr "male" /\ v <> JStr "female".

(** The aggregate in the words of the specification: per label, the number
    of stored observations, the arithmetic mean of their confidences, the
    earliest and the latest timestamp. *)
Definition rows_of_label (l : string) (rows : list Emotion) : list Emotion :=
  filter (fun e => String.eqb (e_emotion_type e) l) rows.














(** Two observations of session 1 with different labels, one each: first
    "sad", then "happy". *)
Definition db_tie : DB :=
  mkDB []
       [mkSession 1 None (Some "Demo") 0 None None (Some 2) None None None None false]
       [mkEmotion 1 1 "sad" (1 # 2) 10 None None None None None None;
        mkEmotion 2 1 "happy" (1 # 2) 20 None None None None None None]
       [] 0 1 2.



(** Bodies and call sequences of the scenarios. *)
Definition observation (sid : Z) (ty : string) (conf : Q) : body :=
  [("sessionId", JNum (inject_Z sid)); ("emotionType", JStr ty);
   ("confidenceScore", JNum conf)].

Definition scenario_A : list (Z * Request) :=
  [(0, PostSession [("sessionName", JStr "Demo")]);
   (10, PostEmotion (observation 1 "happy" (92 # 100)));
   (20, PostEmotion (observation 1 "happy" (80 # 100)))].

(** A session is opened, one observation recorded, the session ended with a
    client-reported [totalDetections] of 0, the observation removed. *)
Definition underflow_calls : list (Z * Request) :=
  [(0, PostSession [("sessionName", JStr "Demo")]);
   (10, PostEmotion (observation 1 "happy" (92 # 100)));
   (20, PutSessionEnd (Some 1) (mkEnd (Some 20) None (Some 0) None));
   (30, DeleteEmotion (Some 1))].

(** A store with one open session, started at instant 100. *)
Definition db_open : DB :=
  mkDB []
       [mkSession 1 None (Some "Demo") 100 None None (Some 0) None None None None false]
       [] [] 0 1 0.


Definition held_by_active (column : User -> string) (v : string) (db : DB) : Prop :=
  exists u, In u (users db) /\ column u = v /\ u_is_active u = true.

Definition credentials (keys : list string) (vals : list string) : body :=
  combine keys (map JStr vals).

(** A store whose only user has been deactivated. *)
Definition db_inactive : DB :=
  mkDB [mkUser 1 "alice" "alice@example.com" "$2a$10$secret1" None false None]
       [] [] [] 1 0 0.

(** A store with one active user, whose password is "right". *)
Definition db_bob : DB :=
  mkDB [mkUser 1 "bob" "bob@example.com" "$2a$10$right" None true None]
       [] [] [] 1 0 0.

(** ** Vocabulary of the further properties *)

(** What [emotionSchema] lets into the table [emotions]. *)
Definition valid_stored (e : Emotion) : Prop :=
  In (e_emotion_type e) emotion_labels
  /\ (0 <= e_confidence_score e <= 1)%Q
  /\ (forall a, e_age_estimate e = Some a -> 0 <= a <= 120)
  /\ (forall g, e_gender_estimate e = Some g -> g = "male" \/ g = "female").

(** Primary keys and UNIQUE columns of [schema.sql]. *)
Record well_keyed (db : DB) : Prop := mkWellKeyed {
  wk_session_ids : NoDup (map s_id (sessions db));
  wk_session_seq : forall s, In s (sessions db) -> s_id s <= seq_sessions db;
  wk_emotion_ids : NoDup (map e_id (emotions db));
  wk_emotion_seq : forall e, In e (emotions db) -> e_id e <= seq_emotions db;
  wk_user_ids : NoDup (map u_id (users db));
  wk_user_seq : forall u, In u (users db) -> u_id u <= seq_users db;
  wk_usernames : NoDup (map u_username (users db));
  wk_emails : NoDup (map u_email (users db))
}.


(** How one request may change each table. *)
Inductive sessions_change (db db' : DB) : Prop :=
| sc_same :
    sessions db' = sessions db -> seq_sessions db' = seq_sessions db ->
    sessions_change db db'
| sc_new (row : Session) :
    s_id row = seq_sessions db + 1 -> s_user_id row = None ->
    sessions db' = (sessions db ++ [row])%list ->
    seq_sessions db' = seq_sessions db + 1 ->
    sessions_change db db'
| sc_map (f : Session -> Session) :
    (forall s, s_id (f s) = s_id s) ->
    (forall s, s_user_id (f s) = s_user_id s) ->
    sessions db' = map f (sessions db) ->
    seq_sessions db' = seq_sessions db ->
    sessions_change db db'
| sc_del (p : Session -> bool) :
    sessions db' = filter p (sessions db) ->
    seq_sessions db' = seq_sessions db ->
    sessions_change db db'.

Inductive emotions_change (db db' : DB) : Prop :=
| ec_same :
    emotions db' = emotions db -> seq_emotions db' = seq_emotions db ->
    emotions_change db db'
| ec_new (row : Emotion) :
    e_id row = seq_emotions db + 1 -> valid_stored row ->
    emotions db' = (emotions db ++ [row])%list ->
    seq_emotions db' = seq_emotions db + 1 ->
    emotions_change db db'
| ec_del (p : Emotion -> bool) :
    emotions db' = filter p (emotions db) ->
    seq_emotions db' = seq_emotions db ->
    emotions_change db db'.

Inductive users_change (db db' : DB) : Prop :=
| uc_same :
    users db' = users db -> seq_users db' = seq_users db ->
    users_change db db'
| uc_new (row : User) :
    u_id row = seq_users db + 1 ->
    (forall u, In u (users db) ->
               u_username u <> u_username row /\ u_email u <> u_email row) ->
    users db' = (users db ++ [row])%list ->
    seq_users db' = seq_users db + 1 ->
    users_change db db'
| uc_map (f : User -> User) :
    (forall u, u_id (f u) = u_id u /\ u_username (f u) = u_username u
               /\ u_email (f u) = u_email u) ->
    users db' = map f (users db) ->
    seq_users db' = seq_users db ->
    users_change db db'.

(** [GET /api/sessions/:id] *)
Definition get_session_by_id (sid : option Z) (db : DB) : Reply Session :=
  match sid with
  | None => Failed (NotFound "Session not found")
  | Some i =>
      match get_session i db with
      | Some s => Done s
      | None => Failed (NotFound "Session not found")
      end
  end.

(** ** Listing routes *)

(** [ORDER BY key DESC] for an integer key.  The insertion sort leaves rows of
    equal key in table order; SQL leaves their order open, and no statement
    below depends on it. *)
Fixpoint insert_desc {A : Type} (key : A -> Z) (x : A) (l : list A) : list A :=
  match l with
  | [] => [x]
  | y :: rest =>
      if key x <? key y then y :: insert_desc key x rest else x :: y :: rest
  end.

Definition order_desc {A : Type} (key : A -> Z) (l : list A) : list A :=
  fold_right (insert_desc key) [] l.

Definition key_desc {A : Type} (key : A -> Z) (l : list A) : Prop :=
  StronglySorted (fun a b => key b <= key a) l.

(** [LIMIT n OFFSET m] of SQLite: a negative [n] means no limit, a negative
    [m] means 0. *)
Definition limit_offset {A : Type} (n m : Z) (l : list A) : list A :=
  let rest := skipn (Z.to_nat m) l in
  if n <? 0 then rest else firstn (Z.to_nat n) rest.

(** [parseInt(text) || fallback]: [None] is NaN; NaN and 0 are falsy. *)
Definition or_default (parsed : option Z) (fallback : Z) : Z :=
  match parsed with
  | Some n => if n =? 0 then fallback else n
  | None => fallback
  end.

(** [GET /api/sessions]: the query is run with [database.get], which yields
    the first row of the result, or nothing. *)
Definition get_sessions (db : DB) : option Session :=
  hd_error (order_desc s_start_time (sessions db)).

(** [WHERE user_id = ?] *)
Definition owned_by (u : Z) (s : Session) : bool :=
  match s_user_id s with
  | Some v => Z.eqb v u
  | None => false
  end.

(** [GET /api/sessions/user/:userId] *)
Definition get_sessions_by_user (userId limit offset : option Z) (db : DB)
    : Page Session :=
  let lim := Z.min (or_default limit 20) 100 in
  let off := or_default offset 0 in
  let rows :=
    match userId with
    | None => []
    | Some u =>
        limit_offset lim off
          (order_desc s_start_time (filter (owned_by u) (sessions db)))
    end in
  mkPage rows lim off (Z.of_nat (List.length rows)).

(** [Database.getEmotionsBySession(sessionId, limit = 100, offset = 0)] *)
Definition getEmotionsBySession (sid : Z) (limit offset : option Z) (db : DB)
    : list Emotion :=
  limit_offset (match limit with Some n => n | None => 100 end)
               (match offset with Some m => m | None => 0 end)
               (order_desc e_timestamp (session_rows sid db)).

(** [FROM emotions e JOIN sessions s ON e.session_id = s.id
     JOIN users u ON s.user_id = u.id] *)
Definition realtime_rows (db : DB) : list Realtime :=
  flat_map
    (fun e =>
       flat_map
         (fun s =>
            if Z.eqb (e_session_id e) (s_id s)
            then flat_map
                   (fun u =>
                      if owned_by (u_id u) s
                      then [mkRealtime e (s_session_name s) (u_username u)]
                      else [])
                   (users db)
            else [])
         (sessions db))
    (emotions db).

(** [GET /api/emotions/realtime]: the rows and their [count]. *)
Definition get_realtime (limit : option Z) (db : DB) : list Realtime * Z :=
  let rows :=
    limit_offset (Z.min (or_default limit 20) 100) 0
      (order_desc (fun r => e_timestamp (rt_emotion r)) (realtime_rows db)) in
  (rows, Z.of_nat (List.length rows)).

(** ** Token verification of routes/auth.js *)

(** [jwt.verify(token, JWT_SECRET)] at the given instant. *)
Variable jwt_verify : string -> Z -> JwtResult.

(** [header.split(' ')] *)
Fixpoint split_spaces (s : string) : list string :=
  match s with
  | EmptyString => [EmptyString]
  | String c rest =>
      if Ascii.eqb c " "%char then EmptyString :: split_spaces rest
      else match split_spaces rest with
           | piece :: pieces => String c piece :: pieces
           | [] => [String c EmptyString]
           end
  end.

Definition has_space (s : string) : bool :=
  existsb (Ascii.eqb " "%char) (list_ascii_of_string s).

(** [authHeader && authHeader.split(' ')[1]]; [None] stands for the falsy
    results: no header, no second piece, an empty second piece. *)
Definition bearer_token (header : option string) : option string :=
  match header with
  | None => None
  | Some h =>
      match nth_error (split_spaces h) 1 with
      | Some t => if String.eqb t "" then None else Some t
      | None => None
      end
  end.

(** [SELECT ... FROM users WHERE id = ? AND is_active = 1] *)
Definition find_active_user (id : Z) (db : DB) : option User :=
  find (fun u => Z.eqb (u_id u) id && u_is_active u) (users db).

(** [POST /api/auth/verify] *)
Definition verify (now : Z) (header : option string) (db : DB) : Reply User :=
  match bearer_token header with
  | None => Failed (Unauthorized "No token provided")
  | Some token =>
      match jwt_verify token now with
      | JwtPayload id _ _ =>
          match find_active_user id db with
          | Some u => Done u
          | None => Failed (Unauthorized "User not found")
          end
      | JwtExpired => Failed (Unauthorized "Token expired")
      | JwtInvalid => Failed (Unauthorized "Invalid token")
      end
  end.

(** The middleware [authenticateToken]. *)
Definition authenticateToken (now : Z) (header : option string) : Gate :=
  match bearer_token header with
  | None => Refuse 401 "Access token required"
  | Some token =>
      match jwt_verify token now with
      | JwtPayload id username email => Pass id username email
      | _ => Refuse 403 "Invalid token"
      end
  end.

(** ** [GET /api/emotions/stats] *)













(** ** Front end: class [EmotionApp] of js/app.js *)

(** [(max, curr) => curr[1] > max[1] ? curr : max] *)
Definition stronger (max curr : string * Q) : string * Q :=
  if Qle_bool (snd curr) (snd max) then max else curr.

(** [Object.entries(expressions).reduce(...)]; [reduce] without an initial
    value throws on an empty array ([None]). *)
Definition max_expression (entries : list (string * Q)) : option (string * Q) :=
  match entries with
  | [] => None
  | first :: rest => Some (fold_left stronger rest first)
  end.

(** [n.toString()] for an integer. *)
Definition number_text (n : Z) : string := NilZero.string_of_int (Z.to_int n).

(** [text.padStart(2, '0')] *)
Definition pad2 (s : string) : string :=
  match String.length s with
  | 0%nat => "00"
  | 1%nat => "0" ++ s
  | _ => s
  end.

(** The text [updateSessionTime] writes; [None] when [sessionStartTime] is
    falsy and nothing is written. *)
Definition session_time (sessionStartTime : option Z) (now : Z) : option string :=
  match sessionStartTime with
  | None => None
  | Some t0 =>
      if t0 =? 0 then None
      else
        let elapsed := (now - t0) / 1000 in
        let minutes := elapsed / 60 in
        let seconds := Z.rem elapsed 60 in
        Some (pad2 (number_text minutes) ++ ":" ++ pad2 (number_text seconds))
  end.

(** [hay.includes(needle)] *)
Fixpoint includes (needle hay : string) : bool :=
  match hay with
  | EmptyString => String.prefix needle hay
  | String _ rest => String.prefix needle hay || includes needle rest
  end.

Definition modelUrls : list string :=
  ["https://cdn.jsdelivr.net/npm/face-api.js@0.22.2/weights/";
   "https://unpkg.com/face-api.js@0.22.2/weights/";
   "./models/"].

Definition local_models : list string :=
  ["tiny_face_detector_model-weights_manifest.json";
   "face_landmark_68_model-weights_manifest.json";
   "face_expression_model-weights_manifest.json";
   "age_gender_model-weights_manifest.json"].

(** [loadLocalModels]: the message of the error thrown, if any. *)
Definition loadLocalModels (net : Network) : option string :=
  if forallb (fun m => check_local net ("./models/" ++ m)) local_models
  then load_from net "./models/"
  else Some "Local models not found".

(** The body of the [try] for one URL. *)
Definition attempt (net : Network) (url : string) : option string :=
  if String.prefix "./" url then loadLocalModels net else load_from net url.

Definition is_network_error (msg : string) : bool :=
  includes "network" msg || includes "fetch" msg.

(** The loop of [loadModels]: [modelsLoaded] and [lastError] at its end. *)
Fixpoint try_urls (net : Network) (urls : list string) (lastError : option string)
    : bool * option string :=
  match urls with
  | [] => (false, lastError)
  | url :: rest =>
      match attempt net url with
      | None => (true, lastError)
      | Some msg =>
          if is_network_error msg then try_urls net rest (Some msg)
          else (false, Some msg)
      end
  end.

(** The text [showDetailedError] passes to [showError]. *)
Definition showDetailedError (msg : string) : string :=
  "Failed to load AI models. "
  ++ (if is_network_error msg
      then "Please check your internet connection or try refreshing the page."
      else if includes "404" msg
           then "Model files not found. Please contact support."
           else "An unexpected error occurred. Please try again later.").

(** [loadModels]: the flag [modelsLoaded] and the error text shown, if any. *)
Definition loadModels (net : Network) : bool * option string :=
  match try_urls net modelUrls None with
  | (true, _) => (true, None)
  | (false, lastError) => (false, option_map showDetailedError lastError)
  end.

(** ** Front end: class [EmotionEngine] *)

(** [a > b] on numbers. *)
Definition Qgtb (a b : Q) : bool := negb (Qle_bool a b).

Definition calculateIntensity (confidence : Q) : string :=
  if Qgtb confidence (9 # 10) then "very high"
  else if Qgtb confidence (7 # 10) then "high"
  else if Qgtb confidence (5 # 10) then "medium"
  else if Qgtb confidence (3 # 10) then "low"
  else "very low".

Definition intensity_rank (level : string) : nat :=
  if String.eqb level "very high" then 4
  else if String.eqb level "high" then 3
  else if String.eqb level "medium" then 2
  else if String.eqb level "low" then 1
  else 0.

(** The property names every object literal inherits. *)
Definition object_prototype_keys : list string :=
  ["constructor"; "hasOwnProperty"; "isPrototypeOf"; "propertyIsEnumerable";
   "toLocaleString"; "toString"; "valueOf"; "__proto__";
   "__defineGetter__"; "__defineSetter__"; "__lookupGetter__";
   "__lookupSetter__"].

Fixpoint own_property {A : Type} (table : list (string * A)) (key : string)
    : option A :=
  match table with
  | [] => None
  | (k, v) :: rest => if String.eqb k key then Some v else own_property rest key
  end.

(** [table[key] || fallback], the entries of [table] being truthy. *)
Definition lookup_or {A : Type} (table : list (string * A)) (fallback : A)
    (key : string) : Looked A :=
  match own_property table key with
  | Some v => Own v
  | None =>
      if mem_string key object_prototype_keys then Inherited key
      else Own fallback
  end.

Definition contexts : list (string * option EmotionContext) :=
  [("happy", Some (mkContext
      ["positive interaction"; "achievement"; "pleasant surprise"]
      ["smiling"; "relaxed facial muscles"; "bright eyes"]
      ["contentment"; "joy"; "satisfaction"]));
   ("sad", Some (mkContext
      ["loss"; "disappointment"; "loneliness"]
      ["drooping features"; "tears"; "downcast eyes"]
      ["grief"; "melancholy"; "withdrawal"]));
   ("angry", Some (mkContext
      ["frustration"; "injustice"; "threat"]
      ["tense muscles"; "furrowed brows"; "flared nostrils"]
      ["irritation"; "resentment"; "aggression"]));
   ("surprised", Some (mkContext
      ["unexpected event"; "revelation"; "shock"]
      ["wide eyes"; "raised eyebrows"; "open mouth"]
      ["astonishment"; "wonder"; "disbelief"]));
   ("fearful", Some (mkContext
      ["threat"; "anxiety"; "uncertainty"]
      ["wide eyes"; "tense muscles"; "frozen expression"]
      ["worry"; "panic"; "dread"]));
   ("disgusted", Some (mkContext
      ["unpleasant stimulus"; "moral violation"; "contamination"]
      ["wrinkled nose"; "raised upper lip"; "tongue protrusion"]
      ["revulsion"; "contempt"; "aversion"]));
   ("neutral", Some (mkContext
      ["calm environment"; "routine activity"; "resting state"]
      ["relaxed features"; "steady gaze"; "minimal expression"]
      ["calmness"; "balance"; "equilibrium"]))].

(** [contexts[emotion] || {}]; [Own None] is the empty object. *)
Definition getEmotionContext (emotion : string) : Looked (option EmotionContext) :=
  lookup_or contexts None emotion.

Definition secondaryMap : list (string * list string) :=
  [("happy", ["content"; "excited"; "grateful"]);
   ("sad", ["melancholy"; "disappointed"; "lonely"]);
   ("angry", ["frustrated"; "irritated"; "annoyed"]);
   ("surprised", ["amazed"; "confused"; "shocked"]);
   ("fearful", ["anxious"; "worried"; "nervous"]);
   ("disgusted", ["repulsed"; "offended"; "disappointed"])].

Definition getSecondaryEmotions (primaryEmotion : string) (confidence : Q)
    : Looked (list string) :=
  lookup_or secondaryMap [] primaryEmotion.

Definition recommendations : list (string * list string) :=
  [("happy", ["Share your joy"; "Practice gratitude"; "Connect with others"]);
   ("sad", ["Talk to someone"; "Practice self-care";
            "Engage in uplifting activities"]);
   ("angry", ["Take deep breaths"; "Step away from situation";
              "Express feelings constructively"]);
   ("surprised", ["Process the information"; "Ask questions"; "Stay curious"]);
   ("fearful", ["Identify the threat"; "Practice grounding techniques";
                "Seek support"]);
   ("disgusted", ["Remove yourself from situation"; "Practice acceptance";
                  "Focus on positive aspects"])].

Definition getRecommendations (emotion : string) : Looked (list string) :=
  lookup_or recommendations ["Stay mindful"] emotion.

(** [updatePatterns]: the entry of the key is created empty at the end of the
    map if it is missing, then the analysis is pushed onto it. *)
Fixpoint updatePatterns (a : Analysis) (patterns : list (string * list Analysis))
    : list (string * list Analysis) :=
  match patterns with
  | [] => [(an_primaryEmotion a, [a])]
  | (k, l) :: rest =>
      if String.eqb k (an_primaryEmotion a) then (k, (l ++ [a])%list) :: rest
      else (k, l) :: updatePatterns a rest
  end.

(** [analyzeEmotionContext(emotion, confidence)] at the instant [now]. *)
Definition analyzeEmotionContext (emotion : string) (confidence : Q) (now : Z)
    (eng : Engine) : Analysis * Engine :=
  let analysis :=
    mkAnalysis emotion confidence now (getEmotionContext emotion)
               (calculateIntensity confidence)
               (getSecondaryEmotions emotion confidence)
               (getRecommendations emotion) in
  (analysis,
   mkEngine (emotionHistory eng ++ [analysis])
            (updatePatterns analysis (emotionPatterns eng))).

(** The engine after [new EmotionEngine()] and a sequence of analyses, each
    given by its emotion, its confidence and the time of the call. *)
Definition new_engine : Engine := mkEngine [] [].

Definition analyze_all (calls : list (string * Q * Z)) (eng : Engine) : Engine :=
  fold_left (fun en c => snd (analyzeEmotionContext (fst (fst c)) (snd (fst c))
                                                    (snd c) en))
            calls eng.

Definition patterns_get (key : string) (eng : Engine) : option (list Analysis) :=
  own_property (emotionPatterns eng) key.

(** The pattern map is the history grouped by emotion. *)
Definition grouped (eng : Engine) : Prop :=
  (forall key,
      patterns_get key eng
      = match filter (fun a => String.eqb (an_primaryEmotion a) key)
                     (emotionHistory eng) with
        | [] => None
        | l => Some l
        end)
  /\ NoDup (map fst (emotionPatterns eng)).

(** Further call sequences, stores and browsers on which statements are
    evaluated. *)
Definition busy_calls : list (Z * Request) :=
  (scenario_A
   ++ [(30, PutSession (Some 1) [("sessionName", JStr "Renamed")]);
       (40, Register (credentials ["username"; "email"; "password"]
                                  ["carol1"; "carol@example.com"; "secret1"]));
       (50, Login (credentials ["email"; "password"]
                               ["carol@example.com"; "secret1"]));
       (60, PostSession [("sessionName", JStr "Second")]);
       (70, DeleteSession (Some 2))])%list.

Definition db_owned : DB :=
  mkDB [mkUser 7 "dana" "dana@example.com" "$2a$10$x" None true None]
       [mkSession 1 (Some 7) (Some "A") 10 None None (Some 0) None None None None false;
        mkSession 2 (Some 7) (Some "B") 30 None None (Some 0) None None None None false;
        mkSession 3 (Some 8) (Some "C") 20 None None (Some 0) None None None None false]
       [] [] 7 3 0.

Definition broken_cdn : Network :=
  mkNetwork (fun _ => Some "404 Not Found") (fun _ => true).

(** Membership of a key in a schema written out as a list. *)
Ltac listed := simpl; repeat (first [left; reflexivity | right]).

(** ** Joi: facts about [validate] *)

Lemma mem_string_In (s : string) (l : list string) :
  mem_string s l = true <-> In s l.
Proof.
  unfold mem_string. rewrite existsb_exists. split.
  - intros (x & Hin & Heq). apply String.eqb_eq in Heq. now subst.
  - intros Hin. exists s. split; [assumption | apply String.eqb_refl].
Qed.

Lemma check_keys_rejects (sch : Schema) (b : body) (ks : KeySchema) :
  In ks sch -> check_key ks (lookup (k_name ks) b) <> None ->
  exists k r, check_keys sch b = Some (k, r).
Proof.
  induction sch as [|a sch IH]; simpl; [tauto|].
  intros [-> | Hin] Hbad.
  - destruct (check_key ks (lookup (k_name ks) b)) as [r|]; [eauto | congruence].
  - destruct (check_key a (lookup (k_name a) b)) as [r|]; eauto.
Qed.

Lemma check_keys_accepts (sch : Schema) (b : body) :
  check_keys sch b = None ->
  Forall (fun ks => check_key ks (lookup (k_name ks) b) = None) sch.
Proof.
  induction sch as [|a sch IH]; simpl; intros H; [constructor|].
  destruct (check_key a (lookup (k_name a) b)) eqn:E; [discriminate|].
  constructor; auto.
Qed.

Lemma check_keys_first (sch : Schema) (b : body) (k : string) (r : Rule) :
  check_keys sch b = Some (k, r) -> first_violation sch b k r.
Proof.
  induction sch as [|a sch IH]; simpl; [discriminate|].
  destruct (check_key a (lookup (k_name a) b)) as [r'|] eqn:E.
  - intros [= <- <-]. exists [], a, sch. repeat split; auto.
  - intros H. destruct (IH H) as (pre & ks & post & -> & Hk & Hpre & Hr).
    exists (a :: pre), ks, post. repeat split; auto.
Qed.

Lemma validate_accepts (sch : Schema) (b : body) (ks : KeySchema) :
  validate sch b = None -> In ks sch ->
  check_key ks (lookup (k_name ks) b) = None.
Proof.
  unfold validate. intros H Hin.
  destruct (check_keys sch b) eqn:E; [discriminate|].
  apply check_keys_accepts in E. rewrite Forall_forall in E. now apply E.
Qed.


Lemma accepted_observation (b : body) :
  validate emotionSchema b = None ->
  exists sid ty conf,
    body_int b "sessionId" = Some sid
    /\ body_str b "emotionType" = Some ty /\ In ty emotion_labels
    /\ body_num b "confidenceScore" = Some conf
    /\ (0 <= conf <= 1)%Q.
Proof.
  intros H.
  pose proof (validate_accepts emotionSchema b) as A.
  assert (H1 := A (mkKey "sessionId" TNumber true None [RInteger]) H).
  assert (H2 := A (mkKey "emotionType" TString true (Some emotion_labels) []) H).
  assert (H3 := A (mkKey "confidenceScore" TNumber true None [RMin 0; RMax 1]) H).
  clear A.
  specialize (H1 ltac:(listed)).
  specialize (H2 ltac:(listed)).
  specialize (H3 ltac:(listed)).
  unfold body_int, body_str, body_num. cbn [k_name] in *.
  unfold check_key in H1, H2, H3; cbn [k_required k_valid k_type k_rules] in *.
  destruct (lookup "sessionId" b) as [[| |q| | |]|]; try discriminate.
  destruct (lookup "emotionType" b) as [[| | |s| |]|]; try discriminate.
  destruct (lookup "confidenceScore" b) as [[| |c| | |]|]; try discriminate.
  unfold first_violated in H1, H3. cbn [find rule_violated] in H1, H3.
  destruct (is_integer q); [|discriminate].
  destruct (mem_string s emotion_labels) eqn:Es; [|discriminate].
  destruct (Qleb (inject_Z 0) c) eqn:E0; [|discriminate].
  destruct (Qleb c (inject_Z 1)) eqn:E1; [|discriminate].
  exists (Qnum (Qred q)), s, c. repeat split; auto.
  - now apply mem_string_In.
  - now apply Qle_bool_iff in E0.
  - now apply Qle_bool_iff in E1.
Qed.

(** C5. A request of POST /api/emotions whose body passes the schema but whose
    sessionId names no row of [sessions] is answered 404 "Session not found",
    and the store, in particular the table [emotions], is left as it was. *)
Theorem post_emotion_unknown_session (now : Z) (b : body) (db : DB) (sid : Z) :
  validate emotionSchema b = None ->
  body_int b "sessionId" = Some sid ->
  get_session sid db = None ->
  post_emotion now b db = (Failed (NotFound "Session not found"), db)
  /\ status (NotFound "Session not found") = 404
  /\ emotions (snd (post_emotion now b db)) = emotions db.
Proof.
  intros Hv Hs Hnone.
  destruct (accepted_observation b Hv) as (sid' & ty & conf & H1 & H2 & _ & H3 & _).
  assert (E : post_emotion now b db = (Failed (NotFound "Session not found"), db)).
  { unfold post_emotion. rewrite Hv, Hs, H2, H3, Hnone. reflexivity. }
  rewrite E. auto.
Qed.

(** C6. POST /api/emotions answers 400 and leaves the store as it was, the
    value neither stored nor clamped, whenever the emotion label is not one of
    the seven labels, the confidence lies outside [0,1], a given age estimate
    lies outside [0,120] or a given gender estimate is neither male nor
    female; the error reported is the first constraint, in the order of the
    keys of the schema, that the body breaks. *)
Theorem post_emotion_rejects_invalid (now : Z) (b : body) (db : DB) :
  label_outside_enum b \/ confidence_out_of_range b
  \/ age_out_of_range b \/ gender_outside_enum b ->
  exists k r,
    post_emotion now b db = (Failed (ValidationError k r), db)
    /\ status (ValidationError k r) = 400
    /\ first_violation emotionSchema b k r.
Proof.
  intros H.
  assert (Hbad : exists ks, In ks emotionSchema
                            /\ check_key ks (lookup (k_name ks) b) <> None).
  { destruct H as [H | [H | [H | H]]].
    - exists (mkKey "emotionType" TString true (Some emotion_labels) []).
      split; [listed|].
      unfold check_key; cbn [k_name k_required k_valid].
      destruct (lookup "emotionType" b) as [[| | |s| |]|] eqn:E; try discriminate.
      destruct (mem_string s emotion_labels) eqn:Es; [|discriminate].
      apply mem_string_In in Es. exfalso. exact (H s E Es).
    - destruct H as (q & E & Hq).
      exists (mkKey "confidenceScore" TNumber true None [RMin 0; RMax 1]).
      split; [listed|].
      unfold check_key; cbn [k_name k_required k_valid k_type k_rules].
      rewrite E. unfold first_violated. cbn [find rule_violated].
      destruct (Qleb (inject_Z 0) q) eqn:E0; [|discriminate].
      destruct (Qleb q (inject_Z 1)) eqn:E1; [|discriminate].
      apply Qle_bool_iff in E0, E1. exfalso.
      destruct Hq as [Hq | Hq].
      + exact (Qlt_not_le _ _ Hq E0).
      + exact (Qlt_not_le _ _ Hq E1).
    - destruct H as (q & E & Hq).
      exists (mkKey "ageEstimate" TNumber false None [RInteger; RMin 0; RMax 120]).
      split; [listed|].
      unfold check_key; cbn [k_name k_required k_valid k_type k_rules].
      rewrite E. unfold first_violated. cbn [find rule_violated].
      destruct (is_integer q); [|discriminate]. cbn [negb].
      destruct (Qleb (inject_Z 0) q) eqn:E0; [|discriminate].
      destruct (Qleb q (inject_Z 120)) eqn:E1; [|discriminate].
      apply Qle_bool_iff in E0, E1. exfalso.
      destruct Hq as [Hq | Hq].
      + exact (Qlt_not_le _ _ Hq E0).
      + exact (Qlt_not_le _ _ Hq E1).
    - destruct H as (v & E & Hm & Hf).
      exists (mkKey "genderEstimate" TString false (Some ["male"; "female"]) []).
      split; [listed|].
      unfold check_key; cbn [k_name k_required k_valid].
      rewrite E. destruct v as [| | |s| |]; try discriminate.
      destruct (mem_string s ["male"; "female"]) eqn:Es; [|discriminate].
      apply mem_string_In in Es. exfalso.
      destruct Es as [<- | [<- | []]]; [now apply Hm | now apply Hf]. }
  destruct Hbad as (ks & Hin & Hk).
  destruct (check_keys_rejects emotionSchema b ks Hin Hk) as (k & r & E).
  exists k, r. split; [|split].
  - unfold post_emotion, validate. rewrite E. reflexivity.
  - reflexivity.
  - now apply check_keys_first.
Qed.


(** ** The aggregate query *)









Lemma rows_of_label_type (t : string) (rows : list Emotion) (e : Emotion) :
  In e (rows_of_label t rows) -> e_emotion_type e = t.
Proof.
  unfold rows_of_label. intros H. apply filter_In in H.
  destruct H as [_ H]. now apply String.eqb_eq.
Qed.




(** *** ORDER BY count DESC *)










(** *** Sum of the counts *)







(** *** No handler writes [emotion_summaries] *)




(** ** The counter [total_detections] *)


Lemma filter_nothing {A : Type} (f : A -> bool) (l : list A) :
  (forall x, In x l -> f x = false) -> filter f l = [].
Proof.
  induction l as [|a l IH]; intros H; cbn [filter]; [reflexivity|].
  rewrite (H a (or_introl eq_refl)). apply IH. intros x Hx. apply H. now right.
Qed.

Lemma filter_everything {A : Type} (f : A -> bool) (l : list A) :
  (forall x, In x l -> f x = true) -> filter f l = l.
Proof.
  induction l as [|a l IH]; intros H; cbn [filter]; [reflexivity|].
  rewrite (H a (or_introl eq_refl)). f_equal. apply IH. intros x Hx. apply H. now right.
Qed.











(** ** Recording, then summarizing *)




(** C2: the code at the failing input.  Once the counter of session 1 has
    been set to 0 by PUT /api/sessions/1/end while an observation is still
    stored, DELETE /api/emotions/1 answers 200 and leaves the counter at -1:
    the decrement neither stops at 0 nor rejects. *)
Theorem delete_emotion_goes_below_zero :
  map s_total_detections
      (sessions (run (firstn 3 underflow_calls) empty_db)) = [Some 0]
  /\ fst (delete_emotion (Some 1) (run (firstn 3 underflow_calls) empty_db))
     = Done "Emotion deleted successfully"
  /\ map s_total_detections (sessions (run underflow_calls empty_db))
     = [Some (-1)].
Proof.
  repeat split; vm_compute; reflexivity.
Qed.

(** ** Ending a session *)




(** ** Registration and login *)

Lemma accepted_string (sch : Schema) (b : body) (ks : KeySchema) :
  validate sch b = None -> In ks sch ->
  k_type ks = TString -> k_required ks = true -> k_valid ks = None ->
  exists s, body_str b (k_name ks) = Some s
            /\ first_violated (k_rules ks) (JStr s) = None.
Proof.
  intros Hv Hin Ht Hr Hn.
  pose proof (validate_accepts sch b ks Hv Hin) as H.
  unfold check_key in H. rewrite Hr, Hn, Ht in H. unfold body_str.
  destruct (lookup (k_name ks) b) as [[| | |s| |]|]; try discriminate.
  destruct (String.eqb s ""); [discriminate|]. eauto.
Qed.

Lemma find_active (column : User -> string) (v : string) (db : DB) :
  held_by_active column v db ->
  exists u, find (fun u => String.eqb (column u) v && u_is_active u) (users db)
            = Some u.
Proof.
  intros (u & Hin & Hv & Ha).
  destruct (find _ (users db)) as [u'|] eqn:F; [eauto|].
  pose proof (find_none _ _ F u Hin) as E. cbv beta in E.
  rewrite Hv, String.eqb_refl, Ha in E. discriminate.
Qed.




(** C9. Two logins whose bodies pass the schema, one with an e-mail that
    [findUserByEmail] does not find, one with the e-mail of a user and a
    password that bcrypt does not match, get the same reply: 401 with the
    message "Invalid credentials", the store left as it was. *)
Theorem login_failures_indistinguishable (now1 now2 : Z) (b1 b2 : body) (db : DB)
    (u : User) (e1 e2 p2 : string) :
  validate loginSchema b1 = None ->
  validate loginSchema b2 = None ->
  body_str b1 "email" = Some e1 ->
  findUserByEmail e1 db = None ->
  body_str b2 "email" = Some e2 ->
  body_str b2 "password" = Some p2 ->
  findUserByEmail e2 db = Some u ->
  bcrypt_compare p2 (u_password_hash u) = false ->
  login now1 b1 db = (Failed (Unauthorized "Invalid credentials"), db)
  /\ login now2 b2 db = (Failed (Unauthorized "Invalid credentials"), db)
  /\ fst (login now1 b1 db) = fst (login now2 b2 db)
  /\ status (Unauthorized "Invalid credentials") = 401.
Proof.
  intros Hv1 Hv2 He1 Hnone He2 Hp2 Hsome Hbad.
  destruct (accepted_string _ b1 (mkKey "password" TString true None []) Hv1)
    as (p1 & Hp1 & _); try reflexivity; [listed|].
  cbn [k_name] in Hp1.
  assert (L1 : login now1 b1 db = (Failed (Unauthorized "Invalid credentials"), db)).
  { unfold login. now rewrite Hv1, He1, Hp1, Hnone. }
  assert (L2 : login now2 b2 db = (Failed (Unauthorized "Invalid credentials"), db)).
  { unfold login. now rewrite Hv2, He2, Hp2, Hsome, Hbad. }
  rewrite L1, L2. auto.
Qed.

(** ** How a request changes the tables *)

Lemma integer_in_range (q : Q) (lo hi : Z) :
  is_integer q = true ->
  Qleb (inject_Z lo) q = true -> Qleb q (inject_Z hi) = true ->
  lo <= Qnum (Qred q) <= hi.
Proof.
  unfold is_integer, Qleb. intros Hi Hlo Hhi.
  apply Qle_bool_iff in Hlo, Hhi.
  rewrite <- (Qred_correct q) in Hlo, Hhi.
  destruct (Qred q) as [n d]. cbn [Qden Qnum] in *.
  apply Pos.eqb_eq in Hi. subst d.
  unfold Qle in Hlo, Hhi. cbn in Hlo, Hhi. lia.
Qed.

Lemma accepted_optional (b : body) :
  validate emotionSchema b = None ->
  (forall a, body_int b "ageEstimate" = Some a -> 0 <= a <= 120)
  /\ (forall g, body_str b "genderEstimate" = Some g -> g = "male" \/ g = "female").
Proof.
  intros H.
  pose proof (validate_accepts emotionSchema b) as A.
  assert (H1 := A (mkKey "ageEstimate" TNumber false None
                         [RInteger; RMin 0; RMax 120]) H).
  assert (H2 := A (mkKey "genderEstimate" TString false
                         (Some ["male"; "female"]) []) H).
  clear A.
  specialize (H1 ltac:(listed)). specialize (H2 ltac:(listed)).
  unfold body_int, body_str. cbn [k_name] in *.
  unfold check_key in H1, H2; cbn [k_required k_valid k_type k_rules] in *.
  split.
  - intros a. destruct (lookup "ageEstimate" b) as [[| |q| | |]|]; try discriminate.
    unfold first_violated in H1. cbn [find rule_violated] in H1.
    destruct (is_integer q) eqn:Ei; [|discriminate]. cbn [negb] in H1.
    destruct (Qleb (inject_Z 0) q) eqn:E0; [|discriminate]. cbn [negb] in H1.
    destruct (Qleb q (inject_Z 120)) eqn:E1; [|discriminate].
    intros [= <-]. now apply integer_in_range.
  - intros g. destruct (lookup "genderEstimate" b) as [[| | |s| |]|]; try discriminate.
    destruct (mem_string s ["male"; "female"]) eqn:Es; [|discriminate].
    intros [= <-]. apply mem_string_In in Es.
    destruct Es as [<- | [<- | []]]; auto.
Qed.

Lemma post_session_changes (now : Z) (b : body) (db : DB) :
  let db' := snd (post_session now b db) in
  sessions_change db db' /\ emotions db' = emotions db
  /\ seq_emotions db' = seq_emotions db /\ users db' = users db
  /\ seq_users db' = seq_users db.
Proof.
  unfold post_session.
  destruct (validate sessionSchema b) as [[k r]|]; cbn [snd].
  - repeat split. now apply sc_same.
  - unfold createSession. cbn [snd]. repeat split.
    eapply sc_new; only 3: reflexivity; reflexivity.
Qed.

Lemma put_session_changes (sid : option Z) (b : body) (db : DB) :
  let db' := snd (put_session sid b db) in
  sessions_change db db' /\ emotions db' = emotions db
  /\ seq_emotions db' = seq_emotions db /\ users db' = users db
  /\ seq_users db' = seq_users db.
Proof.
  unfold put_session.
  destruct (validate sessionSchema b) as [[k r]|]; cbn [snd];
    [repeat split; now apply sc_same|].
  destruct sid as [i|]; cbn [snd]; [|repeat split; now apply sc_same].
  repeat split. unfold update_sessions.
  eapply sc_map; [| |reflexivity|reflexivity];
    intros s; cbv beta; destruct (Z.eqb (s_id s) i); reflexivity.
Qed.

Lemma delete_session_changes (sid : option Z) (db : DB) :
  let db' := snd (delete_session sid db) in
  sessions_change db db' /\ emotions db' = emotions db
  /\ seq_emotions db' = seq_emotions db /\ users db' = users db
  /\ seq_users db' = seq_users db.
Proof.
  unfold delete_session.
  destruct sid as [i|]; cbn [snd]; [|repeat split; now apply sc_same].
  repeat split. eapply sc_del; reflexivity.
Qed.

Lemma put_session_end_changes (sid : option Z) (r : EndRequest) (db : DB) :
  let db' := snd (put_session_end sid r db) in
  sessions_change db db' /\ emotions db' = emotions db
  /\ seq_emotions db' = seq_emotions db /\ users db' = users db
  /\ seq_users db' = seq_users db.
Proof.
  unfold put_session_end.
  destruct sid as [i|]; cbn [snd]; [|repeat split; now apply sc_same].
  repeat split. unfold update_sessions.
  eapply sc_map; [| |reflexivity|reflexivity];
    intros s; cbv beta; destruct (Z.eqb (s_id s) i); try reflexivity;
    unfold end_row, update_sessions_duration; cbn;
    destruct (endTime r), (s_end_time s); reflexivity.
Qed.

Lemma post_emotion_changes (now : Z) (b : body) (db : DB) :
  let db' := snd (post_emotion now b db) in
  sessions_change db db' /\ emotions_change db db'
  /\ users db' = users db /\ seq_users db' = seq_users db.
Proof.
  unfold post_emotion.
  destruct (validate emotionSchema b) as [[k r]|] eqn:Hv; cbn [snd];
    [repeat split; now constructor|].
  destruct (accepted_observation b Hv) as (sid & ty & conf & -> & -> & Hty & -> & Hc).
  destruct (accepted_optional b Hv) as [Hage Hgender].
  destruct (get_session sid db) as [s0|]; cbn [snd]; [|repeat split; now constructor].
  unfold createEmotion. cbn [snd]. repeat split.
  - unfold update_sessions.
    eapply sc_map; [| |reflexivity|reflexivity];
      intros s; cbv beta; destruct (Z.eqb (s_id s) sid); reflexivity.
  - eapply ec_new; [| |reflexivity|reflexivity]; [reflexivity|].
    unfold valid_stored.
    cbn [e_emotion_type e_confidence_score e_age_estimate e_gender_estimate].
    split; [exact Hty|]. split; [exact Hc|]. split; [exact Hage | exact Hgender].
Qed.

Lemma delete_emotion_changes (id : option Z) (db : DB) :
  let db' := snd (delete_emotion id db) in
  sessions_change db db' /\ emotions_change db db'
  /\ users db' = users db /\ seq_users db' = seq_users db.
Proof.
  unfold delete_emotion.
  destruct id as [i|]; cbn [snd]; [|repeat split; now constructor].
  destruct (get_emotion i db) as [e|]; cbn [snd]; [|repeat split; now constructor].
  repeat split.
  - unfold update_sessions.
    eapply sc_map; [| |reflexivity|reflexivity];
      intros s; cbv beta; destruct (Z.eqb (s_id s) (e_session_id e)); reflexivity.
  - eapply ec_del; reflexivity.
Qed.

Lemma createUser_changes (username email hash : string) (fullName : option string)
    (db db' : DB) (id : Z) :
  createUser username email hash fullName db = Some (id, db') ->
  id = seq_users db + 1
  /\ db' = set_users db
             (users db ++ [mkUser id username email hash fullName true None])
             id
  /\ forall u, In u (users db) -> u_username u <> username /\ u_email u <> email.
Proof.
  unfold createUser.
  destruct (existsb _ (users db)) eqn:E; [discriminate|].
  intros [= <- <-]. repeat split.
  - intros Heq. rewrite <- not_true_iff_false in E. apply E.
    apply existsb_exists. exists u. split; [assumption|].
    rewrite Heq, String.eqb_refl. reflexivity.
  - intros Heq. rewrite <- not_true_iff_false in E. apply E.
    apply existsb_exists. exists u. split; [assumption|].
    rewrite Heq, String.eqb_refl. apply orb_true_r.
Qed.

Lemma register_changes (now : Z) (b : body) (db : DB) :
  let db' := snd (register now b db) in
  users_change db db' /\ sessions db' = sessions db
  /\ seq_sessions db' = seq_sessions db /\ emotions db' = emotions db
  /\ seq_emotions db' = seq_emotions db.
Proof.
  unfold register.
  destruct (validate registerSchema b) as [[k r]|]; cbn [snd];
    [repeat split; now constructor|].
  destruct (body_str b "username") as [username|]; [|repeat split; now constructor].
  destruct (body_str b "email") as [email|]; [|repeat split; now constructor].
  destruct (body_str b "password") as [password|]; [|repeat split; now constructor].
  destruct (findUserByEmail email db); [repeat split; now constructor|].
  destruct (findUserByUsername username db); [repeat split; now constructor|].
  destruct (createUser _ _ _ _ db) as [[id db']|] eqn:E;
    [|repeat split; now constructor].
  apply createUser_changes in E. destruct E as (-> & -> & Hfresh).
  cbn [snd]. repeat split.
  eapply uc_new; [| |reflexivity|reflexivity]; [reflexivity|].
  exact Hfresh.
Qed.

Lemma login_changes (now : Z) (b : body) (db : DB) :
  let db' := snd (login now b db) in
  users_change db db' /\ sessions db' = sessions db
  /\ seq_sessions db' = seq_sessions db /\ emotions db' = emotions db
  /\ seq_emotions db' = seq_emotions db.
Proof.
  unfold login.
  destruct (validate loginSchema b) as [[k r]|]; cbn [snd];
    [repeat split; now constructor|].
  destruct (body_str b "email") as [email|]; [|repeat split; now constructor].
  destruct (body_str b "password") as [password|]; [|repeat split; now constructor].
  destruct (findUserByEmail email db) as [user|]; [|repeat split; now constructor].
  destruct (bcrypt_compare password (u_password_hash user)); cbn [snd];
    [|repeat split; now constructor].
  repeat split. unfold touch_last_login.
  eapply uc_map; [|reflexivity|reflexivity].
  intros u. cbv beta. destruct (Z.eqb (u_id u) (u_id user)); repeat split.
Qed.

Lemma same_sessions (db db' : DB) :
  sessions db' = sessions db -> seq_sessions db' = seq_sessions db ->
  sessions_change db db'.
Proof. now constructor. Qed.

Lemma same_emotions (db db' : DB) :
  emotions db' = emotions db -> seq_emotions db' = seq_emotions db ->
  emotions_change db db'.
Proof. now constructor. Qed.

Lemma same_users (db db' : DB) :
  users db' = users db -> seq_users db' = seq_users db ->
  users_change db db'.
Proof. now constructor. Qed.

Lemma step_changes (db : DB) (call : Z * Request) :
  sessions_change db (step db call) /\ emotions_change db (step db call)
  /\ users_change db (step db call).
Proof.
  destruct call as [now req]. destruct req; cbn [step].
  - destruct (post_session_changes now b db) as (H & ? & ? & ? & ?).
    auto using same_emotions, same_users.
  - destruct (put_session_changes sid b db) as (H & ? & ? & ? & ?).
    auto using same_emotions, same_users.
  - destruct (delete_session_changes sid db) as (H & ? & ? & ? & ?).
    auto using same_emotions, same_users.
  - destruct (put_session_end_changes sid r db) as (H & ? & ? & ? & ?).
    auto using same_emotions, same_users.
  - destruct (post_emotion_changes now b db) as (H & ? & ? & ?).
    auto using same_users.
  - destruct (delete_emotion_changes id db) as (H & ? & ? & ?).
    auto using same_users.
  - repeat split; now constructor.
  - destruct (register_changes now b db) as (H & ? & ? & ? & ?).
    auto using same_sessions, same_emotions.
  - destruct (login_changes now b db) as (H & ? & ? & ? & ?).
    auto using same_sessions, same_emotions.
Qed.

(** ** Invariants of every reachable store *)

Lemma nodup_map_filter {A B : Type} (g : A -> B) (p : A -> bool) (l : list A) :
  NoDup (map g l) -> NoDup (map g (filter p l)).
Proof.
  induction l as [|a l IH]; cbn [map filter]; intros H; [constructor|].
  inversion H as [|? ? Hnot Hnd]; subst.
  destruct (p a); cbn [map]; [|auto].
  constructor; [|auto].
  intros Hin. apply Hnot. apply in_map_iff in Hin.
  destruct Hin as (x & Hx & Hf). apply filter_In in Hf.
  apply in_map_iff. exists x. tauto.
Qed.

Lemma nodup_map_snoc {A B : Type} (g : A -> B) (l : list A) (r : A) :
  NoDup (map g l) -> (forall x, In x l -> g x <> g r) ->
  NoDup (map g (l ++ [r])).
Proof.
  intros Hnd Hfresh. rewrite map_app. cbn [map].
  apply NoDup_app; [assumption | repeat constructor; intros [] |].
  intros y Hy [<- | []]. apply in_map_iff in Hy.
  destruct Hy as (x & Hx & Hin). exact (Hfresh x Hin Hx).
Qed.

Lemma well_keyed_empty : well_keyed empty_db.
Proof.
  constructor; cbn; try tauto; constructor.
Qed.

Lemma well_keyed_step (db : DB) (call : Z * Request) :
  well_keyed db -> well_keyed (step db call).
Proof.
  intros [Hs1 Hs2 He1 He2 Hu1 Hu2 Hu3 Hu4].
  destruct (step_changes db call) as (Cs & Ce & Cu).
  assert (S : NoDup (map s_id (sessions (step db call)))
              /\ forall s, In s (sessions (step db call)) ->
                           s_id s <= seq_sessions (step db call)).
  { destruct Cs as [E Q | row Hid _ E Q | f Hf _ E Q | p E Q]; rewrite E, Q.
    - auto.
    - split.
      + apply nodup_map_snoc; [assumption|].
        intros x Hx. specialize (Hs2 x Hx). lia.
      + intros s Hs. apply in_app_or in Hs. destruct Hs as [Hs | [<- | []]];
          [specialize (Hs2 s Hs)|]; lia.
    - split.
      + rewrite map_map. erewrite map_ext; [exact Hs1 | exact Hf].
      + intros s Hs. apply in_map_iff in Hs. destruct Hs as (x & <- & Hx).
        rewrite Hf. auto.
    - split.
      + now apply nodup_map_filter.
      + intros s Hs. apply filter_In in Hs. apply Hs2. tauto. }
  assert (E : NoDup (map e_id (emotions (step db call)))
              /\ forall e, In e (emotions (step db call)) ->
                           e_id e <= seq_emotions (step db call)).
  { destruct Ce as [E Q | row Hid _ E Q | p E Q]; rewrite E, Q.
    - auto.
    - split.
      + apply nodup_map_snoc; [assumption|].
        intros x Hx. specialize (He2 x Hx). lia.
      + intros e He. apply in_app_or in He. destruct He as [He | [<- | []]];
          [specialize (He2 e He)|]; lia.
    - split.
      + now apply nodup_map_filter.
      + intros e He. apply filter_In in He. apply He2. tauto. }
  assert (U : NoDup (map u_id (users (step db call)))
              /\ (forall u, In u (users (step db call)) ->
                            u_id u <= seq_users (step db call))
              /\ NoDup (map u_username (users (step db call)))
              /\ NoDup (map u_email (users (step db call)))).
  { destruct Cu as [E' Q | row Hid Hfresh E' Q | f Hf E' Q]; rewrite E', Q.
    - auto.
    - split; [|split; [|split]].
      + apply nodup_map_snoc; [assumption|].
        intros x Hx. specialize (Hu2 x Hx). lia.
      + intros u Hu. apply in_app_or in Hu. destruct Hu as [Hu | [<- | []]];
          [specialize (Hu2 u Hu)|]; lia.
      + apply nodup_map_snoc; [assumption|]. intros x Hx. now apply Hfresh.
      + apply nodup_map_snoc; [assumption|]. intros x Hx. now apply Hfresh.
    - split; [|split; [|split]].
      + rewrite map_map. erewrite map_ext; [exact Hu1 | apply Hf].
      + intros u Hu. apply in_map_iff in Hu. destruct Hu as (x & <- & Hx).
        rewrite (proj1 (Hf x)). auto.
      + rewrite map_map. erewrite map_ext; [exact Hu3 | apply Hf].
      + rewrite map_map. erewrite map_ext; [exact Hu4 | apply Hf]. }
  destruct S, E, U as (? & ? & ? & ?). now constructor.
Qed.

Lemma run_well_keyed (calls : list (Z * Request)) (db : DB) :
  well_keyed db -> well_keyed (run calls db).
Proof.
  unfold run. revert db.
  induction calls as [|c calls IH]; intros db; cbn [fold_left]; [auto|].
  intros H. apply IH. now apply well_keyed_step.
Qed.

Lemma valid_stored_step (db : DB) (call : Z * Request) :
  Forall valid_stored (emotions db) ->
  Forall valid_stored (emotions (step db call)).
Proof.
  intros H. destruct (step_changes db call) as (_ & Ce & _).
  destruct Ce as [E _ | row _ Hrow E _ | p E _]; rewrite E.
  - assumption.
  - apply Forall_app. split; [assumption | now constructor].
  - rewrite Forall_forall in *. intros e He. apply filter_In in He. apply H. tauto.
Qed.

(** X1. In every store that requests have built from the empty one, each
    stored observation carries one of the seven labels, a confidence within
    [0,1], an age estimate within [0,120] if it has one and a gender estimate
    that is male or female if it has one. *)
Theorem stored_observations_valid (calls : list (Z * Request)) (e : Emotion) :
  In e (emotions (run calls empty_db)) -> valid_stored e.
Proof.
  assert (H : forall db, Forall valid_stored (emotions db) ->
                         Forall valid_stored (emotions (run calls db))).
  { unfold run. induction calls as [|c calls IH]; intros db Hdb; cbn [fold_left];
      [assumption|].
    apply IH. now apply valid_stored_step. }
  intros Hin. specialize (H empty_db (Forall_nil _)).
  rewrite Forall_forall in H. now apply H.
Qed.

(** *** The counter outside the aggregator *)





(** ** Round trips *)

Lemma find_snoc {A : Type} (f : A -> bool) (l : list A) (x : A) :
  (forall y, In y l -> f y = false) ->
  find f (l ++ [x]) = if f x then Some x else None.
Proof.
  induction l as [|a l IH]; intros H; cbn [app find]; [reflexivity|].
  rewrite (H a (or_introl eq_refl)). apply IH. intros y Hy. apply H. now right.
Qed.

Lemma find_absent {A : Type} (f : A -> bool) (l : list A) :
  (forall y, In y l -> f y = false) -> find f l = None.
Proof.
  induction l as [|a l IH]; intros H; cbn [find]; [reflexivity|].
  rewrite (H a (or_introl eq_refl)). apply IH. intros y Hy. apply H. now right.
Qed.

Lemma find_snoc_other {A : Type} (f : A -> bool) (l : list A) (x : A) :
  f x = false -> find f (l ++ [x]) = find f l.
Proof.
  intros Hx. induction l as [|a l IH]; cbn [app find].
  - now rewrite Hx.
  - destruct (f a); [reflexivity | exact IH].
Qed.

(** X3. A session created by POST /api/sessions gets an id that was not in
    use; GET /api/sessions/:id then finds it, open, with the name of the
    request, the server time as start, a counter of 0 and no owner; every
    other id is answered as before. *)
Theorem created_session_is_found (now : Z) (b : body) (db : DB) (id : Z) :
  well_keyed db ->
  fst (post_session now b db) = Done id ->
  get_session_by_id (Some id) db = Failed (NotFound "Session not found")
  /\ (exists s,
        get_session_by_id (Some id) (snd (post_session now b db)) = Done s
        /\ s_id s = id
        /\ s_session_name s = body_str b "sessionName"
        /\ s_start_time s = now /\ s_end_time s = None
        /\ s_total_detections s = Some 0 /\ s_user_id s = None
        /\ s_is_completed s = false)
  /\ (forall j, j <> id ->
        get_session_by_id (Some j) (snd (post_session now b db))
        = get_session_by_id (Some j) db).
Proof.
  intros K. unfold post_session.
  destruct (validate sessionSchema b) as [[k r]|]; [discriminate|].
  unfold createSession. cbn [fst snd]. intros [= <-].
  assert (Hfresh : forall y, In y (sessions db) ->
                             Z.eqb (s_id y) (seq_sessions db + 1) = false).
  { intros y Hy. apply Z.eqb_neq. pose proof (wk_session_seq _ K y Hy). lia. }
  unfold get_session_by_id, get_session. cbn [set_sessions sessions].
  split; [|split].
  - now rewrite (find_absent _ _ Hfresh).
  - rewrite (find_snoc _ _ _ Hfresh). cbn [s_id]. rewrite Z.eqb_refl.
    eexists. split; [reflexivity|]. cbn. repeat split.
  - intros j Hj. rewrite find_snoc_other; [reflexivity|].
    cbn [s_id]. apply Z.eqb_neq. lia.
Qed.

Lemma add_detections_back (s : Session) :
  add_detections (-1) (add_detections 1 s) = s.
Proof.
  destruct s as [? ? ? ? ? ? t ? ? ? ? ?]. unfold add_detections. cbn.
  f_equal. destruct t as [n|]; cbn [option_map]; [|reflexivity].
  f_equal. lia.
Qed.

(** X4. Recording an observation and then deleting the observation just
    recorded leaves the tables [emotions], [sessions] and [users] exactly as
    they were; only the id counter of [emotions] has advanced by one. *)
Theorem record_then_remove (now : Z) (b : body) (db db1 : DB) (rec : Recorded) :
  well_keyed db ->
  post_emotion now b db = (Done rec, db1) ->
  fst (delete_emotion (Some (r_id rec)) db1) = Done "Emotion deleted successfully"
  /\ emotions (snd (delete_emotion (Some (r_id rec)) db1)) = emotions db
  /\ sessions (snd (delete_emotion (Some (r_id rec)) db1)) = sessions db
  /\ users (snd (delete_emotion (Some (r_id rec)) db1)) = users db
  /\ seq_emotions (snd (delete_emotion (Some (r_id rec)) db1))
     = seq_emotions db + 1.
Proof.
  intros K. unfold post_emotion.
  destruct (validate emotionSchema b) as [[k r]|]; [discriminate|].
  destruct (body_int b "sessionId") as [sid|]; [|discriminate].
  destruct (body_str b "emotionType") as [ty|]; [|discriminate].
  destruct (body_num b "confidenceScore") as [conf|]; [|discriminate].
  destruct (get_session sid db); [|discriminate].
  unfold createEmotion. intros [= <- <-]. cbn [r_id].
  set (row := mkEmotion _ _ _ _ _ _ _ _ _ _ _).
  assert (Hfresh : forall y, In y (emotions db) ->
                             Z.eqb (e_id y) (seq_emotions db + 1) = false).
  { intros y Hy. apply Z.eqb_neq. pose proof (wk_emotion_seq _ K y Hy). lia. }
  unfold delete_emotion, get_emotion.
  cbn [update_sessions set_sessions set_emotions emotions].
  rewrite (find_snoc _ _ _ Hfresh). cbn [row e_id]. rewrite Z.eqb_refl.
  cbn [fst snd update_sessions set_sessions set_emotions emotions sessions users
       seq_emotions e_session_id].
  repeat split.
  - rewrite filter_app. cbn [filter e_id]. rewrite Z.eqb_refl. cbn [negb].
    rewrite app_nil_r. apply filter_everything.
    intros y Hy. now rewrite (Hfresh y Hy).
  - rewrite map_map.
    transitivity (map (fun s : Session => s) (sessions db)); [|apply map_id].
    apply map_ext. intros s0. cbv beta.
    change (e_session_id row) with sid.
    destruct (Z.eqb (s_id s0) sid) eqn:E.
    + change (s_id (add_detections 1 s0)) with (s_id s0).
      rewrite E. apply add_detections_back.
    + now rewrite E.
Qed.

(** X5. An observation can be deleted once: the second
    DELETE /api/emotions/:id with the same id is answered 404 and changes
    nothing. *)
Theorem delete_emotion_twice (id : option Z) (db : DB) (msg : string) :
  fst (delete_emotion id db) = Done msg ->
  delete_emotion id (snd (delete_emotion id db))
  = (Failed (NotFound "Emotion not found"), snd (delete_emotion id db)).
Proof.
  unfold delete_emotion at 1 3 4.
  destruct id as [i|]; [|discriminate].
  destruct (get_emotion i db) as [e|]; [|discriminate].
  intros _. cbn [snd]. unfold delete_emotion, get_emotion.
  cbn [update_sessions set_sessions set_emotions emotions].
  rewrite find_absent; [reflexivity|].
  intros y Hy. apply filter_In in Hy. destruct Hy as [_ Hne].
  now apply negb_true_iff in Hne.
Qed.

(** ** Registration, then login *)

Lemma accepted_nonempty (sch : Schema) (b : body) (ks : KeySchema) :
  validate sch b = None -> In ks sch ->
  k_type ks = TString -> k_required ks = true -> k_valid ks = None ->
  exists s, body_str b (k_name ks) = Some s
            /\ String.eqb s "" = false
            /\ first_violated (k_rules ks) (JStr s) = None.
Proof.
  intros Hv Hin Ht Hr Hn.
  pose proof (validate_accepts sch b ks Hv Hin) as H.
  unfold check_key in H. rewrite Hr, Hn, Ht in H. unfold body_str.
  destruct (lookup (k_name ks) b) as [[| | |s| |]|]; try discriminate.
  destruct (String.eqb s "") eqn:E; [discriminate|]. eauto.
Qed.

(** What a successful registration has stored. *)
Lemma register_done (now : Z) (b : body) (db db1 : DB) (reply : AuthReply) :
  register now b db = (Done reply, db1) ->
  exists password,
    validate registerSchema b = None
    /\ body_str b "username" = Some (a_username reply)
    /\ body_str b "email" = Some (a_email reply)
    /\ body_str b "password" = Some password
    /\ a_id reply = seq_users db + 1
    /\ a_fullName reply = body_str b "fullName"
    /\ a_token reply = jwt_sign (a_id reply) (a_username reply) (a_email reply) now
    /\ db1 = set_users db
               (users db ++ [mkUser (a_id reply) (a_username reply) (a_email reply)
                                    (bcrypt_hash password) (a_fullName reply)
                                    true None])
               (a_id reply)
    /\ forall u, In u (users db) ->
                 u_username u <> a_username reply /\ u_email u <> a_email reply.
Proof.
  unfold register.
  destruct (validate registerSchema b) as [[k r]|]; [discriminate|].
  destruct (body_str b "username") as [username|]; [|discriminate].
  destruct (body_str b "email") as [email|]; [|discriminate].
  destruct (body_str b "password") as [password|]; [|discriminate].
  destruct (findUserByEmail email db); [discriminate|].
  destruct (findUserByUsername username db); [discriminate|].
  destruct (createUser _ _ _ _ db) as [[id db']|] eqn:E; [|discriminate].
  apply createUser_changes in E. destruct E as (-> & -> & Hfresh).
  intros [= <- <-]. exists password. cbn. repeat split; apply Hfresh; assumption.
Qed.

(** X6. After a successful registration, a login with the same e-mail and
    password succeeds, provided bcrypt matches the password against its own
    hash: it returns the id, username, e-mail and full name of the
    registration, and sets [last_login] of that user. *)
Theorem register_then_login (now now' : Z) (b : body) (db db1 : DB)
    (reply : AuthReply) (password : string) :
  register now b db = (Done reply, db1) ->
  body_str b "password" = Some password ->
  bcrypt_compare password (bcrypt_hash password) = true ->
  login now' (credentials ["email"; "password"] [a_email reply; password]) db1
  = (Done (mkAuthReply
             (jwt_sign (a_id reply) (a_username reply) (a_email reply) now')
             (a_id reply) (a_username reply) (a_email reply) (a_fullName reply)),
     touch_last_login now' (a_id reply) db1).
Proof.
  intros Hreg Hpw Hbc.
  destruct (register_done _ _ _ _ _ Hreg)
    as (pw & Hv & Hu & He & Hp & Hid & Hfn & _ & -> & Hfresh).
  rewrite Hpw in Hp. injection Hp as <-.
  destruct (accepted_nonempty _ b (mkKey "email" TString true None [REmail]) Hv)
    as (e & He' & Hne & Hfmt); try reflexivity; [listed|].
  destruct (accepted_nonempty _ b (mkKey "password" TString true None [RLenMin 6]) Hv)
    as (p & Hp' & Hnp & _); try reflexivity; [listed|].
  cbn [k_name k_rules] in *. rewrite He in He'. rewrite Hpw in Hp'.
  injection He' as <-. injection Hp' as <-.
  unfold first_violated in Hfmt. cbn [find rule_violated] in Hfmt.
  destruct (email_format (a_email reply)) eqn:Ef; [|discriminate].
  assert (Hval : validate loginSchema
                   (credentials ["email"; "password"] [a_email reply; password])
                 = None).
  { unfold validate, loginSchema, credentials, unknown_key.
    cbn [combine map check_keys k_name lookup].
    cbn [String.eqb Ascii.eqb Bool.eqb].
    unfold check_key. cbn [k_required k_valid k_type k_rules].
    rewrite Hne, Hnp. unfold first_violated. cbn [find rule_violated].
    rewrite Ef. reflexivity. }
  unfold login. rewrite Hval.
  unfold body_str, credentials. cbn [combine map lookup].
  cbn [String.eqb Ascii.eqb Bool.eqb].
  unfold findUserByEmail. cbn [set_users users].
  rewrite find_snoc.
  - cbn [u_email u_is_active u_password_hash u_id u_username u_full_name].
    rewrite String.eqb_refl. cbn [andb].
    cbn [u_email u_is_active u_password_hash u_id u_username u_full_name].
    rewrite Hbc. reflexivity.
  - intros y Hy. destruct (Hfresh y Hy) as [_ Hn].
    apply String.eqb_neq in Hn. now rewrite Hn.
Qed.

(** X7. After a successful registration, every later registration whose
    body passes the schema and reuses the e-mail or the username is answered
    409 and stores nothing. *)
Theorem register_again_conflicts (now now2 : Z) (b b2 : body) (db db1 : DB)
    (reply : AuthReply) :
  register now b db = (Done reply, db1) ->
  validate registerSchema b2 = None ->
  body_str b2 "email" = Some (a_email reply)
  \/ body_str b2 "username" = Some (a_username reply) ->
  exists msg,
    register now2 b2 db1 = (Failed (Conflict msg), db1)
    /\ status (Conflict msg) = 409.
Proof.
  intros Hreg Hv2 Hreuse.
  destruct (register_done _ _ _ _ _ Hreg)
    as (pw & _ & _ & _ & _ & _ & _ & _ & Hdb1 & _).
  set (row := mkUser (a_id reply) (a_username reply) (a_email reply)
                     (bcrypt_hash pw) (a_fullName reply) true None) in Hdb1.
  assert (Hrow : In row (users db1)).
  { rewrite Hdb1. cbn [set_users users]. apply in_or_app. right. now left. }
  destruct (accepted_string _ b2 (mkKey "username" TString true None
              [RAlphanum; RLenMin 3; RLenMax 30]) Hv2) as (u2 & Hu2 & _);
    try reflexivity; [listed|].
  destruct (accepted_string _ b2 (mkKey "email" TString true None [REmail]) Hv2)
    as (e2 & He2 & _); try reflexivity; [listed|].
  destruct (accepted_string _ b2 (mkKey "password" TString true None [RLenMin 6]) Hv2)
    as (p2 & Hp2 & _); try reflexivity; [listed|].
  cbn [k_name] in Hu2, He2, Hp2.
  unfold register. rewrite Hv2, Hu2, He2, Hp2.
  destruct (findUserByEmail e2 db1) eqn:Fe; [eauto|].
  destruct Hreuse as [H | H].
  - exfalso. rewrite He2 in H. injection H as ->.
    destruct (find_active u_email (a_email reply) db1) as (x & Hx).
    + exists row. repeat split. assumption.
    + unfold findUserByEmail in Fe. congruence.
  - rewrite Hu2 in H. injection H as ->.
    destruct (find_active u_username (a_username reply) db1) as (x & Hx).
    + exists row. repeat split. assumption.
    + unfold findUserByUsername. rewrite Hx. eauto.
Qed.

(** ** Listing routes *)

Lemma insert_desc_perm {A : Type} (key : A -> Z) (x : A) (l : list A) :
  Permutation (insert_desc key x l) (x :: l).
Proof.
  induction l as [|y l IH]; cbn [insert_desc]; [reflexivity|].
  destruct (key x <? key y); [|reflexivity].
  rewrite IH. apply perm_swap.
Qed.

Lemma order_desc_perm {A : Type} (key : A -> Z) (l : list A) :
  Permutation (order_desc key l) l.
Proof.
  unfold order_desc.
  induction l as [|x l IH]; cbn [fold_right]; [reflexivity|].
  rewrite insert_desc_perm. now constructor.
Qed.

Lemma insert_desc_sorted {A : Type} (key : A -> Z) (x : A) (l : list A) :
  key_desc key l -> key_desc key (insert_desc key x l).
Proof.
  unfold key_desc.
  induction l as [|y l IH]; intros Hs; cbn [insert_desc].
  - repeat constructor.
  - inversion Hs as [|? ? Hl Hy]; subst.
    destruct (key x <? key y) eqn:E.
    + apply Z.ltb_lt in E. constructor; [auto|].
      rewrite (insert_desc_perm key x l).
      constructor; [lia | assumption].
    + apply Z.ltb_ge in E. constructor; [assumption|].
      constructor; [assumption|].
      rewrite Forall_forall in *. intros z Hz. specialize (Hy z Hz). lia.
Qed.

Lemma order_desc_sorted {A : Type} (key : A -> Z) (l : list A) :
  key_desc key (order_desc key l).
Proof.
  unfold order_desc.
  induction l as [|x l IH]; cbn [fold_right].
  - constructor.
  - now apply insert_desc_sorted.
Qed.

Lemma In_firstn {A : Type} (n : nat) (l : list A) (x : A) :
  In x (firstn n l) -> In x l.
Proof.
  revert l. induction n as [|n IH]; intros l; [intros []|].
  destruct l as [|a l]; [intros []|]. cbn [firstn In]. intuition.
Qed.

Lemma In_skipn {A : Type} (n : nat) (l : list A) (x : A) :
  In x (skipn n l) -> In x l.
Proof.
  revert l. induction n as [|n IH]; intros l; [auto|].
  destruct l as [|a l]; [intros []|]. cbn [skipn In]. auto.
Qed.

Lemma key_desc_skipn {A : Type} (key : A -> Z) (n : nat) (l : list A) :
  key_desc key l -> key_desc key (skipn n l).
Proof.
  unfold key_desc. revert l.
  induction n as [|n IH]; intros l H; [assumption|].
  destruct l as [|a l]; [assumption|]. cbn [skipn].
  inversion H; subst. auto.
Qed.

Lemma key_desc_firstn {A : Type} (key : A -> Z) (n : nat) (l : list A) :
  key_desc key l -> key_desc key (firstn n l).
Proof.
  unfold key_desc. revert l.
  induction n as [|n IH]; intros l H; [constructor|].
  destruct l as [|a l]; [constructor|]. cbn [firstn].
  inversion H as [|? ? Hl Ha]; subst. constructor; [auto|].
  rewrite Forall_forall in *. intros x Hx. apply Ha.
  now apply (In_firstn n).
Qed.

Lemma limit_offset_sorted {A : Type} (key : A -> Z) (n m : Z) (l : list A) :
  key_desc key l -> key_desc key (limit_offset n m l).
Proof.
  intros H. unfold limit_offset. cbv zeta.
  destruct (n <? 0); [|apply key_desc_firstn]; now apply key_desc_skipn.
Qed.

Lemma limit_offset_In {A : Type} (n m : Z) (l : list A) (x : A) :
  In x (limit_offset n m l) -> In x l.
Proof.
  unfold limit_offset. cbv zeta. intros H.
  assert (Hs : In x (skipn (Z.to_nat m) l)).
  { destruct (n <? 0); [assumption|]. now apply In_firstn in H. }
  now apply In_skipn in Hs.
Qed.

Lemma limit_offset_length {A : Type} (n m : Z) (l : list A) :
  0 <= n -> Z.of_nat (List.length (limit_offset n m l)) <= n.
Proof.
  intros Hn. unfold limit_offset. cbv zeta.
  rewrite (proj2 (Z.ltb_ge n 0) Hn).
  pose proof (firstn_le_length (Z.to_nat n) (skipn (Z.to_nat m) l)). lia.
Qed.

Lemma limit_offset_all {A : Type} (n m : Z) (l : list A) :
  m <= 0 -> n < 0 \/ Z.of_nat (List.length l) <= n -> limit_offset n m l = l.
Proof.
  intros Hm Hn. unfold limit_offset. cbv zeta.
  replace (Z.to_nat m) with 0%nat by lia. cbn [skipn].
  destruct (n <? 0) eqn:E; [reflexivity|].
  apply Z.ltb_ge in E. apply firstn_all2. lia.
Qed.

(** X8. GET /api/sessions does not return the list of sessions: it returns
    nothing when the table is empty and otherwise one session, one whose
    start time no other session exceeds. *)
Theorem get_sessions_returns_latest (db : DB) :
  match get_sessions db with
  | None => sessions db = []
  | Some s =>
      In s (sessions db)
      /\ Forall (fun s' => s_start_time s' <= s_start_time s) (sessions db)
  end.
Proof.
  unfold get_sessions.
  pose proof (order_desc_perm s_start_time (sessions db)) as P.
  pose proof (order_desc_sorted s_start_time (sessions db)) as S.
  destruct (order_desc s_start_time (sessions db)) as [|s l]; cbn [hd_error].
  - now apply Permutation_nil in P.
  - split.
    + apply (Permutation_in _ P). now left.
    + rewrite <- P. inversion S as [|? ? _ Hall]; subst.
      constructor; [lia | exact Hall].
Qed.

(** X9. A page of GET /api/sessions/user/:userId holds sessions of that user
    only, newest first; [total] is the size of the page; the limit is at
    most 100 and, when it is not negative, bounds the page.  A negative limit
    parameter is passed on to SQLite, where it means no limit: with offset 0
    the page then holds every session of the user. *)
Theorem sessions_by_user_page (u : Z) (limit offset : option Z) (db : DB) :
  let p := get_sessions_by_user (Some u) limit offset db in
  Forall (fun s => In s (sessions db) /\ s_user_id s = Some u) (p_rows p)
  /\ key_desc s_start_time (p_rows p)
  /\ p_total p = Z.of_nat (List.length (p_rows p))
  /\ p_limit p <= 100
  /\ (0 <= p_limit p -> Z.of_nat (List.length (p_rows p)) <= p_limit p)
  /\ (p_limit p < 0 -> p_offset p <= 0 ->
      Permutation (p_rows p) (filter (owned_by u) (sessions db))).
Proof.
  cbv zeta. unfold get_sessions_by_user. cbn [p_rows p_limit p_offset p_total].
  split; [|split; [|split; [|split; [|split]]]].
  - rewrite Forall_forall. intros s Hs. apply limit_offset_In in Hs.
    apply (Permutation_in _ (order_desc_perm _ _)) in Hs.
    apply filter_In in Hs. destruct Hs as [Hin Ho]. split; [assumption|].
    unfold owned_by in Ho. destruct (s_user_id s) as [v|]; [|discriminate].
    apply Z.eqb_eq in Ho. now subst.
  - apply limit_offset_sorted, order_desc_sorted.
  - reflexivity.
  - lia.
  - apply limit_offset_length.
  - intros Hn Hm. rewrite limit_offset_all; [apply order_desc_perm | assumption | now left].
Qed.

Lemma flat_map_nothing {A B : Type} (f : A -> list B) (l : list A) :
  (forall x, In x l -> f x = []) -> flat_map f l = [].
Proof.
  induction l as [|a l IH]; intros H; cbn [flat_map]; [reflexivity|].
  rewrite (H a (or_introl eq_refl)), IH; [reflexivity|].
  intros x Hx. apply H. now right.
Qed.

Lemma no_owner_step (db : DB) (call : Z * Request) :
  Forall (fun s => s_user_id s = None) (sessions db) ->
  Forall (fun s => s_user_id s = None) (sessions (step db call)).
Proof.
  intros H. destruct (step_changes db call) as (Cs & _ & _).
  destruct Cs as [E _ | row _ Hrow E _ | f _ Hf E _ | p E _]; rewrite E.
  - assumption.
  - apply Forall_app. split; [assumption | now constructor].
  - rewrite Forall_forall in *. intros s Hs. apply in_map_iff in Hs.
    destruct Hs as (x & <- & Hx). rewrite Hf. auto.
  - rewrite Forall_forall in *. intros s Hs. apply filter_In in Hs. apply H. tauto.
Qed.

Lemma run_no_owner (calls : list (Z * Request)) (db : DB) :
  Forall (fun s => s_user_id s = None) (sessions db) ->
  Forall (fun s => s_user_id s = None) (sessions (run calls db)).
Proof.
  unfold run. revert db.
  induction calls as [|c calls IH]; intros db H; cbn [fold_left]; [assumption|].
  apply IH. now apply no_owner_step.
Qed.

(** X10. No request ever links a session to a user: in every store built by
    requests from the empty one all sessions have [user_id] NULL, so
    GET /api/sessions/user/:userId returns an empty page for every user and
    GET /api/emotions/realtime, which joins the owner, returns no rows. *)
Theorem sessions_have_no_owner (calls : list (Z * Request))
    (userId limit offset : option Z) :
  Forall (fun s => s_user_id s = None) (sessions (run calls empty_db))
  /\ p_rows (get_sessions_by_user userId limit offset (run calls empty_db)) = []
  /\ p_total (get_sessions_by_user userId limit offset (run calls empty_db)) = 0
  /\ get_realtime limit (run calls empty_db) = ([], 0).
Proof.
  pose proof (run_no_owner calls empty_db (Forall_nil _)) as H.
  set (db := run calls empty_db) in *.
  assert (Hnone : forall u s, In s (sessions db) -> owned_by u s = false).
  { intros u s Hs. rewrite Forall_forall in H. unfold owned_by.
    now rewrite (H s Hs). }
  assert (P : p_rows (get_sessions_by_user userId limit offset db) = []).
  { unfold get_sessions_by_user. cbn [p_rows].
    destruct userId as [u|]; [|reflexivity].
    rewrite (filter_nothing (owned_by u)); [|intros s Hs; now apply Hnone].
    unfold limit_offset. cbn [order_desc fold_right]. rewrite skipn_nil.
    destruct (_ <? 0); [reflexivity | apply firstn_nil]. }
  split; [exact H|]. split; [exact P|]. split.
  - unfold get_sessions_by_user in *. cbn [p_rows p_total] in *. now rewrite P.
  - unfold get_realtime, realtime_rows.
    rewrite flat_map_nothing.
    + unfold limit_offset. cbn [order_desc fold_right skipn Z.to_nat].
      destruct (_ <? 0); [reflexivity | now rewrite firstn_nil].
    + intros e _. apply flat_map_nothing. intros s Hs.
      destruct (Z.eqb (e_session_id e) (s_id s)); [|reflexivity].
      apply flat_map_nothing. intros u _. now rewrite Hnone.
Qed.

(** X11. [Database.getEmotionsBySession] returns observations of the session
    only, newest first, and at most [limit] of them (100 by default) when the
    limit is not negative; with offset 0 and a limit that is not below the
    number of observations of the session it returns all of them. *)
Theorem emotions_by_session_page (sid : Z) (limit offset : option Z) (db : DB) :
  let lim := match limit with Some n => n | None => 100 end in
  let off := match offset with Some m => m | None => 0 end in
  let rows := getEmotionsBySession sid limit offset db in
  Forall (fun e => In e (emotions db) /\ e_session_id e = sid) rows
  /\ key_desc e_timestamp rows
  /\ (0 <= lim -> Z.of_nat (List.length rows) <= lim)
  /\ (off <= 0 -> Z.of_nat (List.length (session_rows sid db)) <= lim ->
      Permutation rows (session_rows sid db)).
Proof.
  cbv zeta. unfold getEmotionsBySession.
  split; [|split; [|split]].
  - rewrite Forall_forall. intros e He. apply limit_offset_In in He.
    apply (Permutation_in _ (order_desc_perm _ _)) in He.
    unfold session_rows in He. apply filter_In in He.
    destruct He as [Hin Hs]. apply Z.eqb_eq in Hs. auto.
  - apply limit_offset_sorted, order_desc_sorted.
  - apply limit_offset_length.
  - intros Hm Hn. rewrite limit_offset_all; [apply order_desc_perm | assumption |].
    right. now rewrite (Permutation_length (order_desc_perm _ _)).
Qed.

(** ** Updating, deleting and ending a session, then reading it *)

Lemma get_session_update (f : Session -> Session) (i j : Z) (db : DB) :
  (forall s, s_id (f s) = s_id s) ->
  get_session j (update_sessions f i db)
  = if Z.eqb j i then option_map f (get_session i db) else get_session j db.
Proof.
  intros Hf. unfold get_session, update_sessions. cbn [set_sessions sessions].
  induction (sessions db) as [|s l IH]; cbn [map find option_map].
  - destruct (Z.eqb j i); reflexivity.
  - destruct (Z.eqb (s_id s) i) eqn:Ei.
    + rewrite Hf. apply Z.eqb_eq in Ei. subst i.
      destruct (Z.eqb (s_id s) j) eqn:Ej.
      * apply Z.eqb_eq in Ej. subst j. now rewrite Z.eqb_refl.
      * rewrite IH. rewrite (Z.eqb_sym j), Ej. reflexivity.
    + destruct (Z.eqb (s_id s) j) eqn:Ej.
      * apply Z.eqb_eq in Ej. subst j. now rewrite Ei.
      * exact IH.
Qed.

Lemma get_session_filter (i j : Z) (l : list Session) :
  find (fun s => Z.eqb (s_id s) j) (filter (fun s => negb (Z.eqb (s_id s) i)) l)
  = if Z.eqb j i then None else find (fun s => Z.eqb (s_id s) j) l.
Proof.
  induction l as [|s l IH]; cbn [filter find].
  - destruct (Z.eqb j i); reflexivity.
  - destruct (Z.eqb (s_id s) i) eqn:Ei; cbn [negb find].
    + rewrite IH. destruct (Z.eqb j i) eqn:Eji; [reflexivity|].
      destruct (Z.eqb (s_id s) j) eqn:Ej; [|reflexivity].
      apply Z.eqb_eq in Ei, Ej. apply Z.eqb_neq in Eji. lia.
    + destruct (Z.eqb (s_id s) j) eqn:Ej; [|exact IH].
      destruct (Z.eqb j i) eqn:Eji; [|reflexivity].
      apply Z.eqb_eq in Ej, Eji. apply Z.eqb_neq in Ei. lia.
Qed.

(** X12. PUT /api/sessions/:id replaces, it does not patch: after an accepted
    request on an existing session, GET /api/sessions/:id returns the session
    with name, device, address and location exactly as in the body, NULL for
    each of them the body omits, and every other column as before; the other
    sessions are answered as before. *)
Theorem put_session_then_get (i : Z) (b : body) (db : DB) (s : Session) :
  validate sessionSchema b = None ->
  get_session_by_id (Some i) db = Done s ->
  fst (put_session (Some i) b db) = Done tt
  /\ get_session_by_id (Some i) (snd (put_session (Some i) b db))
     = Done (mkSession (s_id s) (s_user_id s) (body_str b "sessionName")
                       (s_start_time s) (s_end_time s) (s_duration_seconds s)
                       (s_total_detections s) (s_accuracy_score s)
                       (body_str b "deviceInfo") (body_str b "ipAddress")
                       (body_str b "location") (s_is_completed s))
  /\ (forall j, j <> i ->
        get_session_by_id (Some j) (snd (put_session (Some i) b db))
        = get_session_by_id (Some j) db).
Proof.
  intros Hv Hget. unfold put_session. rewrite Hv. cbn [fst snd].
  unfold get_session_by_id in *.
  destruct (get_session i db) as [s0|] eqn:E; [|discriminate].
  injection Hget as ->.
  split; [reflexivity|]. split.
  - rewrite get_session_update by reflexivity.
    now rewrite Z.eqb_refl, E.
  - intros j Hj. rewrite get_session_update by reflexivity.
    now rewrite (proj2 (Z.eqb_neq j i) Hj).
Qed.

(** X13. DELETE /api/sessions/:id answers success whether or not the session
    exists; afterwards GET /api/sessions/:id answers 404 for that id and
    answers every other id as before. *)
Theorem delete_session_then_get (i : Z) (db : DB) :
  fst (delete_session (Some i) db) = Done tt
  /\ get_session_by_id (Some i) (snd (delete_session (Some i) db))
     = Failed (NotFound "Session not found")
  /\ forall j, j <> i ->
       get_session_by_id (Some j) (snd (delete_session (Some i) db))
       = get_session_by_id (Some j) db.
Proof.
  unfold delete_session, get_session_by_id, get_session.
  cbn [fst snd set_sessions sessions].
  split; [reflexivity|]. split.
  - now rewrite get_session_filter, Z.eqb_refl.
  - intros j Hj. now rewrite get_session_filter, (proj2 (Z.eqb_neq j i) Hj).
Qed.


(** ** Token verification *)

Lemma split_spaces_cons (s : string) : exists p ps, split_spaces s = p :: ps.
Proof.
  induction s as [|c s IH]; cbn [split_spaces]; [eauto|].
  destruct (Ascii.eqb c " "%char); [eauto|].
  destruct IH as (p & ps & ->). eauto.
Qed.

Lemma split_spaces_no_space (s : string) :
  has_space s = false -> split_spaces s = [s].
Proof.
  unfold has_space.
  induction s as [|c s IH]; cbn [split_spaces list_ascii_of_string existsb];
    [reflexivity|].
  intros H. apply orb_false_elim in H. destruct H as [Hc Hs].
  rewrite Ascii.eqb_sym, Hc. now rewrite (IH Hs).
Qed.

Lemma split_spaces_app (a b : string) :
  has_space a = false ->
  split_spaces (a ++ " " ++ b) = a :: split_spaces b.
Proof.
  unfold has_space.
  induction a as [|c a IH]; cbn [append split_spaces list_ascii_of_string existsb].
  - intros _. reflexivity.
  - intros H. apply orb_false_elim in H. destruct H as [Hc Ha].
    rewrite Ascii.eqb_sym, Hc. cbn [append] in IH. now rewrite (IH Ha).
Qed.

Lemma bearer_token_second (scheme tok : string) :
  has_space scheme = false -> has_space tok = false -> tok <> "" ->
  bearer_token (Some (scheme ++ " " ++ tok)) = Some tok.
Proof.
  intros Hs Ht Hne. unfold bearer_token.
  rewrite (split_spaces_app _ _ Hs), (split_spaces_no_space _ Ht).
  cbn [nth_error]. apply String.eqb_neq in Hne. now rewrite Hne.
Qed.

(** X15. Both token checks take the second space-separated piece of the
    Authorization header as the token and never look at the first: any
    scheme word in front of the token is accepted, and a header without a
    space carries no token. *)
Theorem token_is_second_piece (scheme tok h : string) :
  has_space scheme = false -> has_space tok = false -> tok <> "" ->
  has_space h = false ->
  bearer_token (Some (scheme ++ " " ++ tok)) = Some tok
  /\ bearer_token (Some ("Bearer " ++ tok)) = Some tok
  /\ bearer_token (Some h) = None
  /\ bearer_token None = None.
Proof.
  intros Hs Ht Hne Hh. split; [|split; [|split]].
  - now apply bearer_token_second.
  - now apply (bearer_token_second "Bearer").
  - unfold bearer_token. now rewrite (split_spaces_no_space _ Hh).
  - reflexivity.
Qed.

(** X16. Whatever POST /api/auth/verify accepts, the middleware
    [authenticateToken] lets through, for the same user id.  The converse
    fails: the middleware never consults the store, so the token of a user
    who is no longer active passes it while /verify answers 401
    "User not found". *)
Theorem verify_is_stricter_than_middleware (now : Z) (header : option string)
    (db : DB) :
  (forall u, verify now header db = Done u ->
             exists username email,
               authenticateToken now header = Pass (u_id u) username email)
  /\ (forall token id username email,
        bearer_token header = Some token ->
        jwt_verify token now = JwtPayload id username email ->
        (forall u, In u (users db) -> u_id u = id -> u_is_active u = false) ->
        verify now header db = Failed (Unauthorized "User not found")
        /\ authenticateToken now header = Pass id username email).
Proof.
  unfold verify, authenticateToken. split.
  - intros u. destruct (bearer_token header) as [token|]; [|discriminate].
    destruct (jwt_verify token now) as [id un em| |]; try discriminate.
    destruct (find_active_user id db) as [x|] eqn:F; [|discriminate].
    intros [= ->]. apply find_some in F. destruct F as [_ E].
    apply andb_prop in E. destruct E as [E _]. apply Z.eqb_eq in E.
    subst id. eauto.
  - intros token id un em -> -> Hinactive. split; [|reflexivity].
    unfold find_active_user. rewrite find_absent; [reflexivity|].
    intros u Hu. destruct (Z.eqb (u_id u) id) eqn:E; [|reflexivity].
    apply Z.eqb_eq in E. now rewrite (Hinactive u Hu E).
Qed.

Lemma nodup_key_inj {A : Type} (key : A -> Z) (l : list A) (x y : A) :
  NoDup (map key l) -> In x l -> In y l -> key x = key y -> x = y.
Proof.
  induction l as [|a l IH]; cbn [map In]; [tauto|].
  intros Hnd Hx Hy E. inversion Hnd as [|? ? Hnot Hnd']; subst.
  destruct Hx as [-> | Hx], Hy as [-> | Hy]; auto.
  - exfalso. apply Hnot. rewrite E. now apply in_map.
  - exfalso. apply Hnot. rewrite <- E. now apply in_map.
Qed.

Lemma find_map_id (f : User -> User) (p : User -> bool) (l : list User) :
  (forall u, p (f u) = p u) ->
  find p (map f l) = option_map f (find p l).
Proof.
  intros H. induction l as [|u l IH]; cbn [map find option_map]; [reflexivity|].
  rewrite H. destruct (p u); [reflexivity | exact IH].
Qed.

(** X17. The token issued by a successful login, sent back as
    "Bearer <token>", is accepted by POST /api/auth/verify as long as
    jwt.verify returns its payload: the reply is the user who logged in,
    with [last_login] set to the time of the login. *)
Theorem login_then_verify (now now' : Z) (b : body) (db db1 : DB)
    (reply : AuthReply) :
  well_keyed db ->
  login now b db = (Done reply, db1) ->
  has_space (a_token reply) = false -> a_token reply <> "" ->
  jwt_verify (a_token reply) now'
  = JwtPayload (a_id reply) (a_username reply) (a_email reply) ->
  exists u,
    verify now' (Some ("Bearer " ++ a_token reply)) db1 = Done u
    /\ u_id u = a_id reply /\ u_username u = a_username reply
    /\ u_email u = a_email reply /\ u_last_login u = Some now.
Proof.
  intros K. unfold login.
  destruct (validate loginSchema b) as [[k r]|]; [discriminate|].
  destruct (body_str b "email") as [email|]; [|discriminate].
  destruct (body_str b "password") as [password|]; [|discriminate].
  destruct (findUserByEmail email db) as [user|] eqn:F; [|discriminate].
  destruct (bcrypt_compare password (u_password_hash user)); [|discriminate].
  intros [= <- <-]. cbn [a_token a_id a_username a_email].
  intros Hsp Hne Hjwt.
  apply find_some in F. destruct F as [Hin Hact].
  apply andb_prop in Hact. destruct Hact as [_ Hact].
  set (tok := jwt_sign (u_id user) (u_username user) (u_email user) now) in *.
  assert (Hb : bearer_token (Some ("Bearer " ++ tok)) = Some tok)
    by exact (bearer_token_second "Bearer" tok eq_refl Hsp Hne).
  unfold verify. rewrite Hb, Hjwt.
  unfold find_active_user, touch_last_login. cbn [set_users users].
  rewrite find_map_id.
  - assert (Hf : exists x, find (fun u => Z.eqb (u_id u) (u_id user) && u_is_active u)
                                (users db) = Some x /\ x = user).
    { destruct (find _ (users db)) as [x|] eqn:Fx.
      - exists x. split; [reflexivity|]. apply find_some in Fx.
        destruct Fx as [Hx E]. apply andb_prop in E. destruct E as [E _].
        apply Z.eqb_eq in E.
        exact (nodup_key_inj u_id _ x user (wk_user_ids _ K) Hx Hin E).
      - pose proof (find_none _ _ Fx user Hin) as E. cbv beta in E.
        rewrite Z.eqb_refl, Hact in E. discriminate. }
    destruct Hf as (x & -> & ->). cbn [option_map].
    eexists. split; [reflexivity|]. rewrite Z.eqb_refl.
    cbn [u_id u_username u_email u_last_login]. repeat split.
  - intros u. cbv beta. destruct (Z.eqb (u_id u) (u_id user)) eqn:E;
      cbn [u_id u_is_active]; now rewrite ?E.
Qed.

(** ** The statistics route *)














(** ** Front end *)

Lemma fold_stronger (rest pre post : list (string * Q)) (acc : string * Q) :
  Forall (fun e => (snd e < snd acc)%Q) pre ->
  Forall (fun e => (snd e <= snd acc)%Q) post ->
  exists pre' post',
    (pre ++ acc :: post ++ rest)%list
    = (pre' ++ fold_left stronger rest acc :: post')%list
    /\ Forall (fun e => (snd e < snd (fold_left stronger rest acc))%Q) pre'
    /\ Forall (fun e => (snd e <= snd (fold_left stronger rest acc))%Q) post'.
Proof.
  revert pre post acc.
  induction rest as [|c rest IH]; intros pre post acc Hpre Hpost; cbn [fold_left].
  - exists pre, post. rewrite app_nil_r. auto.
  - unfold stronger at 2 4 6. destruct (Qle_bool (snd c) (snd acc)) eqn:E.
    + apply Qle_bool_iff in E.
      destruct (IH pre (post ++ [c])%list acc Hpre) as (pre' & post' & Heq & H1 & H2).
      { apply Forall_app. split; [assumption | now constructor]. }
      exists pre', post'. split; [|auto].
      rewrite <- Heq, <- app_assoc. reflexivity.
    + assert (Hlt : (snd acc < snd c)%Q).
      { apply Qnot_le_lt. intros H. apply Qle_bool_iff in H. congruence. }
      destruct (IH (pre ++ acc :: post)%list [] c) as (pre' & post' & Heq & H1 & H2).
      { apply Forall_app. split; [|constructor; [assumption|]].
        - rewrite Forall_forall in *. intros e He. specialize (Hpre e He). lra.
        - rewrite Forall_forall in *. intros e He. specialize (Hpost e He). lra. }
      { constructor. }
      exists pre', post'. split; [|auto].
      rewrite <- Heq, <- app_assoc. reflexivity.
Qed.

(** X19. The emotion shown for a face is the first entry of its expression
    scores with the greatest score: every entry before it scores strictly
    less, every entry after it scores at most as much.  No entry is chosen
    only when there are no scores. *)
Theorem max_expression_first_greatest (entries : list (string * Q)) :
  match max_expression entries with
  | None => entries = []
  | Some m =>
      exists pre post,
        entries = (pre ++ m :: post)%list
        /\ Forall (fun e => (snd e < snd m)%Q) pre
        /\ Forall (fun e => (snd e <= snd m)%Q) post
  end.
Proof.
  destruct entries as [|first rest]; cbn [max_expression]; [reflexivity|].
  destruct (fold_stronger rest [] [] first (Forall_nil _) (Forall_nil _))
    as (pre & post & Heq & H1 & H2).
  exists pre, post. cbn [app] in Heq. auto.
Qed.

Lemma length_append (a b : string) :
  String.length (a ++ b) = (String.length a + String.length b)%nat.
Proof.
  induction a as [|c a IH]; cbn [append String.length]; [reflexivity|].
  now rewrite IH.
Qed.

Lemma two_digits (n : Z) :
  0 <= n < 100 -> String.length (pad2 (number_text n)) = 2%nat.
Proof.
  intros Hn.
  assert (H : forallb (fun k => Nat.eqb (String.length
                                           (pad2 (number_text (Z.of_nat k)))) 2)
                      (seq 0 100) = true) by (vm_compute; reflexivity).
  rewrite forallb_forall in H.
  specialize (H (Z.to_nat n)). rewrite Z2Nat.id in H by lia.
  apply Nat.eqb_eq, H. apply in_seq. lia.
Qed.

(** X20. While the session start is set and not in the future, the session
    clock reads minutes, a colon and seconds, where the seconds are two
    digits between 00 and 59 and 60 * minutes + seconds is the number of
    whole seconds elapsed; below 100 minutes the text has exactly five
    characters. *)
Theorem session_time_format (t0 now : Z) :
  t0 <> 0 -> t0 <= now ->
  exists m s,
    session_time (Some t0) now
    = Some (pad2 (number_text m) ++ ":" ++ pad2 (number_text s))
    /\ 0 <= m /\ 0 <= s < 60
    /\ 60 * m + s = (now - t0) / 1000
    /\ String.length (pad2 (number_text s)) = 2%nat
    /\ (m < 100 ->
        String.length (pad2 (number_text m) ++ ":" ++ pad2 (number_text s))
        = 5%nat).
Proof.
  intros Hne Hle. unfold session_time.
  rewrite (proj2 (Z.eqb_neq t0 0) Hne). cbv zeta.
  set (e := (now - t0) / 1000).
  assert (He : 0 <= e) by (apply Z.div_pos; lia).
  exists (e / 60), (Z.rem e 60).
  rewrite (Z.rem_mod_nonneg e 60) by lia.
  pose proof (Z.mod_pos_bound e 60 ltac:(lia)) as Hs.
  pose proof (Z.div_mod e 60 ltac:(lia)) as Hdm.
  assert (Hm : 0 <= e / 60) by (apply Z.div_pos; lia).
  split; [reflexivity|]. split; [assumption|]. split; [assumption|].
  split; [lia|]. split; [apply two_digits; lia|].
  intros Hlt. rewrite !length_append. cbn [String.length].
  rewrite !two_digits by lia. reflexivity.
Qed.

Lemma try_urls_loaded (net : Network) (urls : list string) (last : option string) :
  fst (try_urls net urls last) = true
  <-> exists pre url post,
        urls = (pre ++ url :: post)%list
        /\ attempt net url = None
        /\ Forall (fun u => exists msg, attempt net u = Some msg
                                        /\ is_network_error msg = true) pre.
Proof.
  revert last. induction urls as [|u urls IH]; intros last; cbn [try_urls].
  - split; [discriminate|]. intros (pre & url & post & H & _).
    destruct pre; discriminate.
  - destruct (attempt net u) as [msg|] eqn:A.
    + destruct (is_network_error msg) eqn:N.
      * rewrite IH. split.
        -- intros (pre & url & post & -> & Hu & Hpre).
           exists (u :: pre), url, post. repeat split; [assumption|].
           constructor; [eauto | assumption].
        -- intros (pre & url & post & Heq & Hu & Hpre).
           destruct pre as [|p pre]; cbn [app] in Heq; injection Heq as E1 E2.
           ++ subst. congruence.
           ++ subst. inversion Hpre; subst.
              exists pre, url, post. auto.
      * split; [discriminate|]. intros (pre & url & post & Heq & Hu & Hpre).
        destruct pre as [|p pre]; cbn [app] in Heq; injection Heq as E1 E2.
        -- subst. congruence.
        -- subst. inversion Hpre as [|? ? (m & Hm & Hn) _]; subst. congruence.
    + split; [|reflexivity]. intros _. exists [], u, urls. auto.
Qed.

(** X21. [loadModels] sets [modelsLoaded] exactly when some source loads
    and every source tried before it failed with an error whose message
    contains "network" or "fetch": a failure of any other kind ends the
    search, later sources are not tried.  When no source loads, one error
    text is shown; when one loads, none. *)
Theorem models_loaded_iff (net : Network) :
  (fst (loadModels net) = true
   <-> exists pre url post,
         modelUrls = (pre ++ url :: post)%list
         /\ attempt net url = None
         /\ Forall (fun u => exists msg, attempt net u = Some msg
                                         /\ is_network_error msg = true) pre)
  /\ (fst (loadModels net) = true -> snd (loadModels net) = None)
  /\ (fst (loadModels net) = false ->
      exists msg, snd (loadModels net) = Some (showDetailedError msg))
  /\ (forall msg, attempt net (hd "" modelUrls) = Some msg ->
                  is_network_error msg = false ->
                  loadModels net = (false, Some (showDetailedError msg))).
Proof.
  split; [|split; [|split]].
  - rewrite <- (try_urls_loaded net modelUrls None). unfold loadModels.
    destruct (try_urls net modelUrls None) as [[|] e]; cbn [fst];
      split; auto.
  - unfold loadModels. destruct (try_urls net modelUrls None) as [[|] e];
      cbn [fst snd]; [auto | discriminate].
  - unfold loadModels, modelUrls. cbn [try_urls].
    repeat match goal with
           | |- context [match attempt net ?u with _ => _ end] =>
               destruct (attempt net u)
           | |- context [if is_network_error ?m then _ else _] =>
               destruct (is_network_error m)
           end; cbn [fst snd option_map]; try discriminate; eauto.
  - intros msg. unfold loadModels, modelUrls. cbn [hd try_urls].
    intros -> ->. reflexivity.
Qed.

(** X22. [calculateIntensity] is monotone: a greater confidence never gets
    a lower level.  The thresholds are exclusive: the level is "very high"
    exactly above 0.9 and "very low" exactly up to 0.3. *)
Theorem intensity_monotone (c1 c2 c : Q) :
  ((c1 <= c2)%Q ->
   (intensity_rank (calculateIntensity c1)
    <= intensity_rank (calculateIntensity c2))%nat)
  /\ (calculateIntensity c = "very high" <-> (9 # 10 < c)%Q)
  /\ (calculateIntensity c = "very low" <-> (c <= 3 # 10)%Q).
Proof.
  assert (G : forall a b, Qgtb a b = true <-> (b < a)%Q).
  { intros a b. unfold Qgtb. rewrite negb_true_iff. split.
    - intros E. apply Qnot_le_lt. intros H. apply Qle_bool_iff in H. congruence.
    - intros H. destruct (Qle_bool a b) eqn:E; [|reflexivity].
      apply Qle_bool_iff in E. lra. }
  assert (N : forall a b, Qgtb a b = false <-> (a <= b)%Q).
  { intros a b. unfold Qgtb. rewrite negb_false_iff. apply Qle_bool_iff. }
  split; [|split].
  - intros Hle. unfold calculateIntensity.
    repeat match goal with
           | |- context [Qgtb ?a ?b] =>
               let E := fresh "E" in
               destruct (Qgtb a b) eqn:E;
               [apply G in E | apply N in E]
           end; cbn; try lia; lra.
  - unfold calculateIntensity. split.
    + repeat match goal with
             | |- context [Qgtb ?a ?b] =>
                 let E := fresh "E" in
                 destruct (Qgtb a b) eqn:E; [apply G in E | apply N in E]
             end; try discriminate; auto.
    + intros H. now rewrite (proj2 (G _ _) H).
  - unfold calculateIntensity. split.
    + repeat match goal with
             | |- context [Qgtb ?a ?b] =>
                 let E := fresh "E" in
                 destruct (Qgtb a b) eqn:E; [apply G in E | apply N in E]
             end; try discriminate; auto.
    + intros H.
      rewrite (proj2 (N c (9 # 10))) by lra. rewrite (proj2 (N c (7 # 10))) by lra.
      rewrite (proj2 (N c (5 # 10))) by lra. rewrite (proj2 (N c (3 # 10))) by lra.
      reflexivity.
Qed.

(** *** The patterns of the engine *)

Lemma own_property_update (a : Analysis) (m : list (string * list Analysis))
    (key : string) :
  own_property (updatePatterns a m) key
  = if String.eqb (an_primaryEmotion a) key
    then Some (match own_property m key with Some l => l | None => [] end
               ++ [a])%list
    else own_property m key.
Proof.
  induction m as [|[k l] m IH]; cbn [updatePatterns own_property].
  - destruct (String.eqb (an_primaryEmotion a) key); reflexivity.
  - destruct (String.eqb k (an_primaryEmotion a)) eqn:Ek.
    + apply String.eqb_eq in Ek. subst k. cbn [own_property].
      destruct (String.eqb (an_primaryEmotion a) key); reflexivity.
    + cbn [own_property]. destruct (String.eqb k key) eqn:Ekey.
      * apply String.eqb_eq in Ekey. subst key.
        now rewrite String.eqb_sym, Ek.
      * exact IH.
Qed.

Lemma pattern_keys_update (a : Analysis) (m : list (string * list Analysis)) :
  map fst (updatePatterns a m)
  = if mem_string (an_primaryEmotion a) (map fst m) then map fst m
    else (map fst m ++ [an_primaryEmotion a])%list.
Proof.
  unfold mem_string.
  induction m as [|[k l] m IH]; cbn [updatePatterns map existsb fst]; [reflexivity|].
  rewrite (String.eqb_sym (an_primaryEmotion a) k).
  destruct (String.eqb k (an_primaryEmotion a)); cbn [orb map fst].
  - reflexivity.
  - rewrite IH. destruct (existsb _ _); reflexivity.
Qed.

Lemma analyze_grouped (emotion : string) (confidence : Q) (now : Z) (eng : Engine) :
  grouped eng -> grouped (snd (analyzeEmotionContext emotion confidence now eng)).
Proof.
  intros [Hget Hnd]. unfold analyzeEmotionContext. cbv zeta. cbn [snd].
  set (a := mkAnalysis _ _ _ _ _ _ _). split.
  - intros key. unfold patterns_get in *. cbn [emotionPatterns emotionHistory].
    rewrite own_property_update, filter_app. cbn [filter].
    rewrite Hget.
    destruct (String.eqb (an_primaryEmotion a) key).
    + destruct (filter _ (emotionHistory eng)); reflexivity.
    + rewrite app_nil_r. reflexivity.
  - cbn [emotionPatterns]. rewrite pattern_keys_update.
    destruct (mem_string _ _) eqn:E; [assumption|].
    apply NoDup_app; [assumption | repeat constructor; intros [] |].
    intros x Hx [<- | []]. apply mem_string_In in Hx. congruence.
Qed.

Lemma analyze_all_history (calls : list (string * Q * Z)) (eng : Engine) :
  map (fun a => (an_primaryEmotion a, an_confidence a, an_timestamp a))
      (emotionHistory (analyze_all calls eng))
  = (map (fun a => (an_primaryEmotion a, an_confidence a, an_timestamp a))
         (emotionHistory eng) ++ calls)%list.
Proof.
  unfold analyze_all. revert eng.
  induction calls as [|[[e c] t] calls IH]; intros eng; cbn [fold_left].
  - now rewrite app_nil_r.
  - rewrite IH. unfold analyzeEmotionContext. cbn [snd fst emotionHistory].
    rewrite map_app, <- app_assoc. reflexivity.
Qed.

Lemma analyze_all_grouped (calls : list (string * Q * Z)) (eng : Engine) :
  grouped eng -> grouped (analyze_all calls eng).
Proof.
  unfold analyze_all. revert eng.
  induction calls as [|[[e c] t] calls IH]; intros eng H; cbn [fold_left];
    [assumption|].
  apply IH. now apply analyze_grouped.
Qed.

(** X23. After any sequence of analyses on a new engine, the history holds
    one analysis per call, in call order, and the pattern map is the history
    grouped by emotion: the entry of a key is the list of the analyses with
    that emotion, in order, the map has an entry exactly for the emotions
    that occurred, and no key twice. *)
Theorem patterns_are_grouped_history (calls : list (string * Q * Z)) (key : string) :
  let eng := analyze_all calls new_engine in
  map (fun a => (an_primaryEmotion a, an_confidence a, an_timestamp a))
      (emotionHistory eng) = calls
  /\ patterns_get key eng
     = match filter (fun a => String.eqb (an_primaryEmotion a) key)
                    (emotionHistory eng) with
       | [] => None
       | l => Some l
       end
  /\ NoDup (map fst (emotionPatterns eng)).
Proof.
  cbv zeta. split.
  - now rewrite analyze_all_history.
  - assert (G : grouped new_engine) by (split; [reflexivity | constructor]).
    destruct (analyze_all_grouped calls new_engine G) as [Hget Hnd]. auto.
Qed.

End Service.

(** ** Concrete requests *)




(** Instances of the theorems on the scenarios. *)

Lemma post_emotion_unknown_session_witness :
  get_session 9999 empty_db = None
  /\ post_emotion sample_email_format 5 (observation 9999 "happy" (1 # 2)) empty_db
     = (Failed (NotFound "Session not found"), empty_db).
Proof.
  split; [reflexivity|].
  apply (post_emotion_unknown_session sample_email_format 5
           (observation 9999 "happy" (1 # 2)) empty_db 9999); reflexivity.
Defined.

Lemma post_emotion_rejects_invalid_witness :
  let b := observation 1 "happy" (3 # 2) in
  confidence_out_of_range b
  /\ exists k r,
       post_emotion sample_email_format 5 b db_open
       = (Failed (ValidationError k r), db_open)
       /\ status (ValidationError k r) = 400
       /\ first_violation sample_email_format emotionSchema b k r.
Proof.
  cbv zeta.
  assert (H : confidence_out_of_range (observation 1 "happy" (3 # 2))).
  { exists (3 # 2). split; [reflexivity | right; reflexivity]. }
  split; [exact H|].
  apply (post_emotion_rejects_invalid sample_email_format 5 _ db_open).
  right; left; exact H.
Defined.







Lemma login_failures_indistinguishable_witness :
  let b1 := credentials ["email"; "password"] ["nobody@example.com"; "right"] in
  let b2 := credentials ["email"; "password"] ["bob@example.com"; "wrong"] in
  login sample_email_format sample_bcrypt_compare sample_jwt_sign 5 b1 db_bob
  = (Failed (Unauthorized "Invalid credentials"), db_bob)
  /\ login sample_email_format sample_bcrypt_compare sample_jwt_sign 7 b2 db_bob
     = (Failed (Unauthorized "Invalid credentials"), db_bob)
  /\ fst (login sample_email_format sample_bcrypt_compare sample_jwt_sign 5 b1 db_bob)
     = fst (login sample_email_format sample_bcrypt_compare sample_jwt_sign 7 b2 db_bob)
  /\ status (Unauthorized "Invalid credentials") = 401.
Proof.
  cbv zeta.
  apply (login_failures_indistinguishable sample_email_format sample_bcrypt_compare
           sample_jwt_sign 5 7 _ _ db_bob
           (mkUser 1 "bob" "bob@example.com" "$2a$10$right" None true None)
           "nobody@example.com" "bob@example.com" "wrong");
    reflexivity.
Defined.

(** Instances of the further theorems. *)

Lemma stored_observations_valid_witness :
  valid_stored (mkEmotion 1 1 "happy" (92 # 100) 10 None None None None None None).
Proof.
  apply (stored_observations_valid sample_email_format sample_bcrypt_hash
           sample_bcrypt_compare sample_jwt_sign busy_calls).
  left; reflexivity.
Defined.


Lemma created_session_is_found_witness :
  let db := run sample_email_format sample_bcrypt_hash sample_bcrypt_compare
                sample_jwt_sign scenario_A empty_db in
  fst (post_session sample_email_format 40 [("sessionName", JStr "Next")] db)
  = Done 2
  /\ get_session_by_id (Some 2) db = Failed (NotFound "Session not found").
Proof.
  cbv zeta. split; [reflexivity|].
  apply (created_session_is_found sample_email_format 40
           [("sessionName", JStr "Next")] _ 2).
  - apply run_well_keyed, well_keyed_empty.
  - reflexivity.
Defined.

Lemma record_then_remove_witness :
  let db := run sample_email_format sample_bcrypt_hash sample_bcrypt_compare
                sample_jwt_sign scenario_A empty_db in
  let db1 := snd (post_emotion sample_email_format 30
                               (observation 1 "sad" (1 # 2)) db) in
  emotions (snd (delete_emotion (Some 3) db1)) = emotions db.
Proof.
  intros db db1.
  apply (record_then_remove sample_email_format 30 (observation 1 "sad" (1 # 2))
           db db1 (mkRecorded 3 1 "sad" (1 # 2) 30)).
  - apply run_well_keyed, well_keyed_empty.
  - reflexivity.
Defined.

Lemma delete_emotion_twice_witness :
  let db := run sample_email_format sample_bcrypt_hash sample_bcrypt_compare
                sample_jwt_sign scenario_A empty_db in
  fst (delete_emotion (Some 1) db) = Done "Emotion deleted successfully"
  /\ delete_emotion (Some 1) (snd (delete_emotion (Some 1) db))
     = (Failed (NotFound "Emotion not found"), snd (delete_emotion (Some 1) db)).
Proof.
  cbv zeta. split; [reflexivity|].
  apply (delete_emotion_twice (Some 1) _ "Emotion deleted successfully").
  reflexivity.
Defined.

Lemma register_then_login_witness :
  let b := credentials ["username"; "email"; "password"]
                       ["carol1"; "carol@example.com"; "secret1"] in
  let db1 := snd (register sample_email_format sample_bcrypt_hash sample_jwt_sign
                           5 b empty_db) in
  login sample_email_format sample_bcrypt_compare sample_jwt_sign 9
        (credentials ["email"; "password"] ["carol@example.com"; "secret1"]) db1
  = (Done (mkAuthReply (sample_jwt_sign 1 "carol1" "carol@example.com" 9)
                       1 "carol1" "carol@example.com" None),
     touch_last_login 9 1 db1).
Proof.
  intros b db1.
  apply (register_then_login sample_email_format sample_bcrypt_hash
           sample_bcrypt_compare sample_jwt_sign 5 9 b empty_db db1
           (mkAuthReply (sample_jwt_sign 1 "carol1" "carol@example.com" 5)
                        1 "carol1" "carol@example.com" None)
           "secret1");
    reflexivity.
Defined.

Lemma register_again_conflicts_witness :
  let b := credentials ["username"; "email"; "password"]
                       ["carol1"; "carol@example.com"; "secret1"] in
  let b2 := credentials ["username"; "email"; "password"]
                        ["dave22"; "carol@example.com"; "secret9"] in
  let db1 := snd (register sample_email_format sample_bcrypt_hash sample_jwt_sign
                           5 b empty_db) in
  exists msg,
    register sample_email_format sample_bcrypt_hash sample_jwt_sign 6 b2 db1
    = (Failed (Conflict msg), db1)
    /\ status (Conflict msg) = 409.
Proof.
  intros b b2 db1.
  apply (register_again_conflicts sample_email_format sample_bcrypt_hash
           sample_jwt_sign 5 6 b b2 empty_db db1
           (mkAuthReply (sample_jwt_sign 1 "carol1" "carol@example.com" 5)
                        1 "carol1" "carol@example.com" None)).
  - reflexivity.
  - reflexivity.
  - left; reflexivity.
Defined.

Lemma sessions_by_user_page_witness :
  let p := get_sessions_by_user (Some 7) (Some (-1)) None db_owned in
  p_limit p = -1
  /\ Permutation (p_rows p) (filter (owned_by 7) (sessions db_owned)).
Proof.
  cbv zeta. split; [reflexivity|].
  apply (sessions_by_user_page 7 (Some (-1)) None db_owned).
  - reflexivity.
  - cbn. lia.
Defined.

Lemma emotions_by_session_page_witness :
  Permutation (getEmotionsBySession 1 None None db_tie) (session_rows 1 db_tie).
Proof.
  apply (emotions_by_session_page 1 None None db_tie).
  - lia.
  - cbn. lia.
Defined.

Lemma put_session_then_get_witness :
  get_session_by_id (Some 1)
    (snd (put_session sample_email_format (Some 1)
                      [("sessionName", JStr "Renamed")] db_open))
  = Done (mkSession 1 None (Some "Renamed") 100 None None (Some 0) None None None
                    None false).
Proof.
  apply (put_session_then_get sample_email_format 1
           [("sessionName", JStr "Renamed")] db_open
           (mkSession 1 None (Some "Demo") 100 None None (Some 0) None None None
                      None false));
    reflexivity.
Defined.

Lemma delete_session_then_get_witness :
  get_session_by_id (Some 2) (snd (delete_session (Some 1) db_owned))
  = get_session_by_id (Some 2) db_owned.
Proof.
  apply (delete_session_then_get 1 db_owned). lia.
Defined.


Lemma token_is_second_piece_witness :
  bearer_token (Some ("Basic" ++ " " ++ "abc.def")) = Some "abc.def"
  /\ bearer_token (Some ("Bearer " ++ "abc.def")) = Some "abc.def"
  /\ bearer_token (Some "Bearer") = None
  /\ bearer_token None = None.
Proof.
  apply (token_is_second_piece "Basic" "abc.def" "Bearer");
    try reflexivity. discriminate.
Defined.

Lemma verify_is_stricter_than_middleware_witness :
  verify sample_jwt_verify 0 (Some "Bearer jwt.bob.bob@example.com") db_inactive
  = Failed (Unauthorized "User not found")
  /\ authenticateToken sample_jwt_verify 0 (Some "Bearer jwt.bob.bob@example.com")
     = Pass 1 "bob" "bob@example.com".
Proof.
  apply (proj2 (verify_is_stricter_than_middleware sample_jwt_verify 0
                  (Some "Bearer jwt.bob.bob@example.com") db_inactive)
               "jwt.bob.bob@example.com" 1 "bob" "bob@example.com").
  - reflexivity.
  - reflexivity.
  - intros u [<- | []] _. reflexivity.
Defined.

Lemma login_then_verify_witness :
  let b := credentials ["email"; "password"] ["bob@example.com"; "right"] in
  let db1 := snd (login sample_email_format sample_bcrypt_compare sample_jwt_sign
                        5 b db_bob) in
  exists u,
    verify sample_jwt_verify 9 (Some ("Bearer " ++ "jwt.bob.bob@example.com")) db1
    = Done u
    /\ u_id u = 1 /\ u_username u = "bob" /\ u_email u = "bob@example.com"
    /\ u_last_login u = Some 5.
Proof.
  intros b db1.
  apply (login_then_verify sample_email_format sample_bcrypt_compare
           sample_jwt_sign sample_jwt_verify 5 9 b db_bob db1
           (mkAuthReply "jwt.bob.bob@example.com" 1 "bob" "bob@example.com" None)).
  - constructor; cbn.
    + constructor.
    + intros x F; destruct F.
    + constructor.
    + intros x F; destruct F.
    + repeat constructor; intros F; destruct F.
    + intros x [<- | F]; [cbn; lia | destruct F].
    + repeat constructor; intros F; destruct F.
    + repeat constructor; intros F; destruct F.
  - reflexivity.
  - reflexivity.
  - discriminate.
  - reflexivity.
Defined.

Lemma session_time_format_witness :
  session_time (Some 1000) 126000 = Some "02:05"
  /\ exists m s,
       session_time (Some 1000) 126000
       = Some (pad2 (number_text m) ++ ":" ++ pad2 (number_text s))
       /\ 0 <= m /\ 0 <= s < 60
       /\ 60 * m + s = (126000 - 1000) / 1000
       /\ String.length (pad2 (number_text s)) = 2%nat
       /\ (m < 100 ->
           String.length (pad2 (number_text m) ++ ":" ++ pad2 (number_text s))
           = 5%nat).
Proof.
  split; [reflexivity|].
  apply (session_time_format 1000 126000); lia.
Defined.

Lemma models_loaded_iff_witness :
  loadModels broken_cdn = (false, Some (showDetailedError "404 Not Found")).
Proof.
  apply (proj2 (proj2 (proj2 (models_loaded_iff broken_cdn))) "404 Not Found");
    reflexivity.
Defined.

Lemma intensity_monotone_witness :
  (intensity_rank (calculateIntensity (1 # 2))
   <= intensity_rank (calculateIntensity (8 # 10)))%nat.
Proof.
  apply (proj1 (intensity_monotone (1 # 2) (8 # 10) 0)).
  unfold Qle. cbn. lia.
Defined.
